(** * Fact-checker pipeline (app.py): claim extraction and verification

    A shallow embedding of [src/app.py]: the two pipeline functions
    [extract_claims] and [verify_claim], the clean-up of the text-generation
    service's answer that both share, and the script body that saves an
    uploaded PDF, runs the pipeline and removes the temporary file.

    Python values are embedded as follows.
    - [str] is a list of Unicode code points ([pystr]).
    - The objects produced by [json.loads] (and the dictionaries the
      function [verify_claim] returns) are values of type [json]; a [dict]
      is a finite map from strings, whose equality is the equality
      of Python dictionaries (same keys, same values).
    - An exception is a value of type [exn]; code that may raise returns a
      [result].  Code that also talks to the outside world (the two service
      clients, the PDF loader, the Streamlit widgets, the file system) is a
      state transformer over [world] that returns a [result]. *)

From Stdlib Require Import ZArith NArith String Ascii.
From stdpp Require Import gmap list fin_maps pretty.

Local Open Scope N_scope.

(** ** Python strings *)

Definition pystr := list N.

(** An ASCII literal of the source, as a sequence of code points (the
    other characters of the source, all of them emoji, are written as
    their code points). *)
Definition py (s : string) : pystr :=
  (fun a => N_of_ascii a) <$> list_ascii_of_string s.

(** The same, for text that contains double quotes: the apostrophe is
    written for the double quote (none of the literals of [app.py] written
    this way contains an apostrophe of its own). *)
Definition pyq (s : string) : pystr :=
  (fun c => if c =? 39 then 34 else c) <$> py s.

Definition nl : pystr := [10].

(** [str.isspace] for one character: the characters removed by
    [str.strip()] when it is called without argument. *)
Definition isspace (c : N) : bool :=
  ((9 <=? c) && (c <=? 13)) || ((28 <=? c) && (c <=? 32))
  || (c =? 133) || (c =? 160) || (c =? 5760)
  || ((8192 <=? c) && (c <=? 8202))
  || (c =? 8232) || (c =? 8233) || (c =? 8239) || (c =? 8287) || (c =? 12288).

Fixpoint lstrip (s : pystr) : pystr :=
  match s with
  | [] => []
  | c :: s' => if isspace c then lstrip s' else s
  end.

Fixpoint rstrip (s : pystr) : pystr :=
  match s with
  | [] => []
  | c :: s' =>
      match rstrip s' with
      | [] => if isspace c then [] else [c]
      | r => c :: r
      end
  end.

(** [s.strip()] *)
Definition strip (s : pystr) : pystr := rstrip (lstrip s).

(** [s.startswith(prefix)] *)
Fixpoint startswith (s prefix : pystr) {struct prefix} : bool :=
  match prefix with
  | [] => true
  | a :: prefix' =>
      match s with
      | [] => false
      | b :: s' => (a =? b) && startswith s' prefix'
      end
  end.

(** [s.split(sep)] for a non-empty separator: the pieces between the
    occurrences of [sep], found from left to right without overlap.
    [skip] counts the characters of the occurrence just found that are
    still to be passed over; [cur] is the piece being read. *)
Fixpoint split_go (sep : pystr) (skip : nat) (cur s : pystr) : list pystr :=
  match s with
  | [] => [cur]
  | c :: s' =>
      match skip with
      | S k => split_go sep k cur s'
      | O =>
          if startswith s sep
          then cur :: split_go sep (length sep - 1) [] s'
          else split_go sep 0 (cur ++ [c]) s'
      end
  end.

Definition split (s sep : pystr) : list pystr := split_go sep 0 [] s.

(** [sep.join(parts)] *)
Fixpoint join (sep : pystr) (parts : list pystr) : pystr :=
  match parts with
  | [] => []
  | [p] => p
  | p :: rest => p ++ sep ++ join sep rest
  end.

(** ** Python objects and exceptions *)

(** The values [json.loads] builds.  A float keeps the text of its
    literal: the program never computes with one. *)
#[warning="-register-all"]
Inductive json : Type :=
| JNull
| JBool (b : bool)
| JInt (z : Z)
| JFloat (literal : pystr)
| JStr (s : pystr)
| JList (l : list json)
| JDict (d : gmap pystr json).

(** The operation a [TypeError] comes from. *)
Inductive type_error : Type :=
| NotSubscriptable      (* v[k] on None, a bool or a number *)
| BadIndex              (* v['key'] on a str or a list *)
| NoItemAssignment      (* v['key'] = x on anything but a dict *)
| NotIterable           (* for x in v on None, a bool or a number *)
| NoLen                 (* len(v) on None, a bool or a number *)
| Unhashable            (* a list or a dict used as a dict key *)
| BadOperand.           (* v[:100] + '...' on a list or a dict *)

(** The exceptions of class [Exception] the program can meet.
    [ServiceError] stands for whatever a client library raises (network
    failure, authentication, rate limit, a malformed PDF, ...). *)
Inductive exn : Type :=
| KeyError (key : pystr)
| TypeError (op : type_error) (operand : json)
| AttributeError (attr : pystr)
| IndexError
| JSONDecodeError (doc : pystr)
| FileNotFoundError (path : pystr)
| ServiceError (msg : pystr).

Inductive result (A : Type) : Type :=
| Ok (a : A)
| Raise (e : exn).
Arguments Ok {A} a.
Arguments Raise {A} e.

#[global] Instance result_ret : MRet result := @Ok.
#[global] Instance result_bind : MBind result := fun A B k r =>
  match r with
  | Ok a => k a
  | Raise e => Raise e
  end.

(** [l[i]] on a list *)
Definition list_getitem {A} (l : list A) (i : nat) : result A :=
  match l !! i with
  | Some x => Ok x
  | None => Raise IndexError
  end.

(** ** Removing the markdown code fence (lines 53-59 and 110-116) *)

Definition fence : pystr := py "```".
Definition json_tag : pystr := py "json".

(** [content.strip()], where [content] may be [None]. *)
Definition content_strip (content : option pystr) : result pystr :=
  match content with
  | Some s => Ok (strip s)
  | None => Raise (AttributeError (py "strip"))
  end.

(** The [if] block under "Remove markdown code blocks if present":
<<
    if s.startswith("```"):
        s = s.split("```")[1]
        if s.startswith("json"):
            s = s[4:]
>> *)
Definition strip_fences (s : pystr) : result pystr :=
  if startswith s fence then
    inner ← list_getitem (split s fence) 1;
    if startswith inner json_tag then Ok (drop 4 inner) else Ok inner
  else Ok s.

(** The whole clean-up of a response: [strip], the [if] block, [strip]. *)
Definition clean_response (content : option pystr) : result pystr :=
  s ← content_strip content;
  s ← strip_fences s;
  Ok (strip s).

(** ** Operations on Python objects *)

(** What the interpreter decides and the program only passes on: the
    text of a value that is not a string ([repr]), the text of an
    exception ([str(e)]), and whether a float literal denotes zero. *)
Class Runtime : Type := {
  py_repr : json -> pystr;
  exn_str : exn -> pystr;
  float_is_zero : pystr -> bool
}.

(** [str(v)], which is what an f-string inserts for [{v}]. *)
Definition py_str {RT : Runtime} (v : json) : pystr :=
  match v with
  | JStr s => s
  | _ => py_repr v
  end.

(** [v[key]] for a string [key]. *)
Definition py_getitem (v : json) (key : pystr) : result json :=
  match v with
  | JDict d =>
      match d !! key with
      | Some x => Ok x
      | None => Raise (KeyError key)
      end
  | JStr _ | JList _ => Raise (TypeError BadIndex v)
  | _ => Raise (TypeError NotSubscriptable v)
  end.

(** [v[key] = x] for a string [key]; the result is [v] after the
    assignment. *)
Definition py_setitem (v : json) (key : pystr) (x : json) : result json :=
  match v with
  | JDict d => Ok (JDict (<[key := x]> d))
  | _ => Raise (TypeError NoItemAssignment v)
  end.

(** [v.get(key, dflt)] *)
Definition py_get (v : json) (key : pystr) (dflt : json) : result json :=
  match v with
  | JDict d => Ok (default dflt (d !! key))
  | _ => Raise (AttributeError (py "get"))
  end.

(** The elements a [for] loop or a comprehension visits in [v]: the items
    of a list, the keys of a dict, the characters of a string.  (The keys
    come in the order of the finite map, not in the order of insertion;
    every loop of [app.py] that can meet a dict either raises at its first
    key or only prints the keys.) *)
Definition py_iter (v : json) : result (list json) :=
  match v with
  | JList l => Ok l
  | JDict d => Ok (JStr <$> (map_to_list d).*1)
  | JStr s => Ok ((fun c => JStr [c]) <$> s)
  | _ => Raise (TypeError NotIterable v)
  end.

(** [len(v)] *)
Definition py_len (v : json) : result nat :=
  match v with
  | JStr s => Ok (length s)
  | JList l => Ok (length l)
  | JDict d => Ok (size d)
  | _ => Raise (TypeError NoLen v)
  end.

(** The truth value of [v] in an [if]. *)
Definition py_truthy {RT : Runtime} (v : json) : bool :=
  match v with
  | JNull => false
  | JBool b => b
  | JInt z => negb (z =? 0)%Z
  | JFloat f => negb (float_is_zero f)
  | JStr s => negb (bool_decide (s = []))
  | JList l => match l with [] => false | _ => true end
  | JDict d => negb (bool_decide (size d = 0%nat))
  end.

(** [v == s] for a string literal [s]: only an equal string is equal. *)
Definition py_eq_str (v : json) (s : pystr) : bool :=
  match v with
  | JStr t => bool_decide (t = s)
  | _ => false
  end.

(** A comprehension [[f(x) for x in l]] whose body may raise: the first
    exception ends it. *)
Fixpoint traverse {A B} (f : A -> result B) (l : list A) : result (list B) :=
  match l with
  | [] => Ok []
  | x :: l' => y ← f x; ys ← traverse f l'; Ok (y :: ys)
  end.

(** ** [json.loads]

    The decoder of the standard library (the C scanner, strict mode):
    whitespace is space, tab, line feed and carriage return; a string may
    not hold a control character; [NaN], [Infinity] and [-Infinity] are
    accepted; a key given twice keeps its last value; text after the
    value is an error.  [fuel] bounds the depth of the calls: a call
    that goes one level down has read at least one character every
    second time, so twice the length of the text is enough. *)

Definition is_json_ws (c : N) : bool :=
  (c =? 32) || (c =? 9) || (c =? 10) || (c =? 13).

Fixpoint skip_ws (s : pystr) : pystr :=
  match s with
  | [] => []
  | c :: s' => if is_json_ws c then skip_ws s' else s
  end.

Definition is_digit (c : N) : bool := (48 <=? c) && (c <=? 57).

Definition hex_digit (c : N) : option N :=
  if is_digit c then Some (c - 48)
  else if (97 <=? c) && (c <=? 102) then Some (c - 87)
  else if (65 <=? c) && (c <=? 70) then Some (c - 55)
  else None.

(** The four hexadecimal digits of a [\uXXXX] escape. *)
Definition hex4 (s : pystr) : option (N * pystr) :=
  match s with
  | a :: b :: c :: d :: rest =>
      x1 ← hex_digit a; x2 ← hex_digit b; x3 ← hex_digit c; x4 ← hex_digit d;
      Some (((x1 * 16 + x2) * 16 + x3) * 16 + x4, rest)
  | _ => None
  end.

(** The character an escape stands for, from the character after the
    backslash: quote, backslash, slash, b, f, n, r, t. *)
Definition simple_escape (c : N) : option N :=
  if c =? 34 then Some 34
  else if c =? 92 then Some 92
  else if c =? 47 then Some 47
  else if c =? 98 then Some 8
  else if c =? 102 then Some 12
  else if c =? 110 then Some 10
  else if c =? 114 then Some 13
  else if c =? 116 then Some 9
  else None.

(** The body of a string literal, after its opening quote: the decoded
    string and the text after the closing quote. *)
Fixpoint scanstring (fuel : nat) (s acc : pystr) : option (pystr * pystr) :=
  match fuel with
  | O => None
  | S n =>
      match s with
      | [] => None
      | c :: s' =>
          if c =? 34 then Some (acc, s')
          else if c =? 92 then
            match s' with
            | [] => None
            | e :: s'' =>
                if e =? 117 then
                  '(u, r) ← hex4 s'';
                  if (55296 <=? u) && (u <=? 56319) then
                    match r with
                    | 92 :: 117 :: r' =>
                        '(u2, r'') ← hex4 r';
                        if (56320 <=? u2) && (u2 <=? 57343)
                        then scanstring n r''
                               (acc ++ [65536 + (u - 55296) * 1024 + (u2 - 56320)])
                        else scanstring n r (acc ++ [u])
                    | _ => scanstring n r (acc ++ [u])
                    end
                  else scanstring n r (acc ++ [u])
                else
                  x ← simple_escape e; scanstring n s'' (acc ++ [x])
            end
          else if c <? 32 then None
          else scanstring n s' (acc ++ [c])
      end
  end.

Fixpoint span_digits (s : pystr) : pystr * pystr :=
  match s with
  | [] => ([], [])
  | c :: s' =>
      if is_digit c then let '(ds, r) := span_digits s' in (c :: ds, r)
      else ([], s)
  end.

Definition int_of_digits (ds : pystr) : Z :=
  foldl (fun acc c => (acc * 10 + Z.of_N (c - 48))%Z) 0%Z ds.

(** A number: an optional minus sign; a single 0 or a non-zero digit
    followed by digits; an optional fraction (a dot and at least one
    digit); an optional exponent (e or E, an optional sign, at least one
    digit).  With a fraction or an exponent it is a float, otherwise an
    int. *)
Definition match_number (s : pystr) : option (json * pystr) :=
  let '(sign, s1) :=
    match s with
    | c :: r => if c =? 45 then ([c], r) else ([], s)
    | [] => ([], s)
    end in
  '(ip, r1) ←
    match s1 with
    | c :: r =>
        if (49 <=? c) && (c <=? 57)
        then let '(ds, r') := span_digits r in Some (c :: ds, r')
        else if c =? 48 then Some ([c], r)
        else None
    | [] => None
    end;
  let '(frac, r2) :=
    match r1 with
    | dot :: d :: r =>
        if (dot =? 46) && is_digit d
        then let '(ds, r') := span_digits r in (dot :: d :: ds, r')
        else ([], r1)
    | _ => ([], r1)
    end in
  let '(ex, r3) :=
    match r2 with
    | e :: r =>
        if (e =? 101) || (e =? 69) then
          let '(sg, r') :=
            match r with
            | c :: t => if (c =? 45) || (c =? 43) then ([c], t) else ([], r)
            | [] => ([], r)
            end in
          let '(ds, r'') := span_digits r' in
          match ds with
          | [] => ([], r2)
          | _ => (e :: sg ++ ds, r'')
          end
        else ([], r2)
    | [] => ([], r2)
    end in
  match frac, ex with
  | [], [] =>
      Some (JInt (match sign with
                  | [] => int_of_digits ip
                  | _ => - int_of_digits ip
                  end)%Z, r3)
  | _, _ => Some (JFloat (sign ++ ip ++ frac ++ ex), r3)
  end.

Fixpoint scan_once (fuel : nat) (s : pystr) {struct fuel}
  : option (json * pystr) :=
  match fuel with
  | O => None
  | S n =>
      match s with
      | [] => None
      | c :: r =>
          if c =? 34 then
            '(str, r') ← scanstring (S (length r)) r []; Some (JStr str, r')
          else if c =? 123 then
            match skip_ws r with
            | c' :: r' =>
                if c' =? 125 then Some (JDict ∅, r')
                else parse_members n (c' :: r') ∅
            | [] => None
            end
          else if c =? 91 then
            match skip_ws r with
            | c' :: r' =>
                if c' =? 93 then Some (JList [], r')
                else parse_elements n (c' :: r') []
            | [] => None
            end
          else if startswith s (py "null") then Some (JNull, drop 4 s)
          else if startswith s (py "true") then Some (JBool true, drop 4 s)
          else if startswith s (py "false") then Some (JBool false, drop 5 s)
          else if startswith s (py "NaN") then Some (JFloat (py "NaN"), drop 3 s)
          else if startswith s (py "Infinity")
          then Some (JFloat (py "Infinity"), drop 8 s)
          else if startswith s (py "-Infinity")
          then Some (JFloat (py "-Infinity"), drop 9 s)
          else match_number s
      end
  end
with parse_elements (fuel : nat) (s : pystr) (acc : list json) {struct fuel}
  : option (json * pystr) :=
  match fuel with
  | O => None
  | S n =>
      '(v, r) ← scan_once n s;
      match skip_ws r with
      | c :: r' =>
          if c =? 93 then Some (JList (acc ++ [v]), r')
          else if c =? 44 then parse_elements n (skip_ws r') (acc ++ [v])
          else None
      | [] => None
      end
  end
with parse_members (fuel : nat) (s : pystr) (acc : gmap pystr json)
  {struct fuel} : option (json * pystr) :=
  match fuel with
  | O => None
  | S n =>
      match s with
      | q :: r =>
          if q =? 34 then
            '(key, r1) ← scanstring (S (length r)) r [];
            match skip_ws r1 with
            | colon :: r2 =>
                if colon =? 58 then
                  '(v, r3) ← scan_once n (skip_ws r2);
                  match skip_ws r3 with
                  | c :: r4 =>
                      if c =? 125 then Some (JDict (<[key := v]> acc), r4)
                      else if c =? 44
                      then parse_members n (skip_ws r4) (<[key := v]> acc)
                      else None
                  | [] => None
                  end
                else None
            | [] => None
            end
          else None
      | [] => None
      end
  end.

Definition json_loads (s : pystr) : result json :=
  if startswith s [65279] then Raise (JSONDecodeError s)
  else
    match scan_once (2 * length s + 2) (skip_ws s) with
    | Some (v, rest) =>
        match skip_ws rest with
        | [] => Ok v
        | _ => Raise (JSONDecodeError s)
        end
    | None => Raise (JSONDecodeError s)
    end.

(** ** The outside world *)

(** The answer of [chat.completions.create], as far as the program reads
    it: [response.choices[0].message.content]. *)
Record chat_choice : Type := { message_content : option pystr }.
Record chat_completion : Type := { choices : list chat_choice }.

Record chat_request : Type := {
  model : pystr;
  system_content : pystr;
  user_content : pystr;
  temperature : pystr
}.

(** The collaborators of the pipeline.  [ext] is whatever state they keep
    (the network, the model's sampling, the clock); each call may change
    it, and either returns or raises.  The PDF loader is given the files
    on disk as well. *)
Class Services : Type := {
  ext : Type;
  chat_completions_create : chat_request -> ext -> result chat_completion * ext;
  tavily_search : json -> nat -> ext -> result json * ext;
  pdf_load :
    pystr -> gmap pystr (list N) -> ext ->
    result (list pystr) * gmap pystr (list N) * ext
}.

(** What the page shows, in the order of the calls. *)
Inductive widget : Type :=
| Success | Subheader | Write | Error | Warning | Info
| Markdown | Spinner | Expander | Placeholder.

Inductive ui_event : Type :=
| Text (w : widget) (body : pystr)
| Metric (label : pystr) (value : nat)
| Columns (n : nat)
| Progress (num den : nat)
| PlaceholderEmpty.

Section Pipeline.
Context {RT : Runtime} {SV : Services}.

Record world : Type := {
  outside : ext;
  files : gmap pystr (list N);
  ui : list ui_event
}.

(** A statement: it changes the world and returns or raises. *)
Definition io (A : Type) : Type := world -> result A * world.

#[global] Instance io_ret : MRet io := fun A a w => (Ok a, w).
#[global] Instance io_bind : MBind io := fun A B k m w =>
  match m w with
  | (Ok a, w') => k a w'
  | (Raise e, w') => (Raise e, w')
  end.

Definition lift {A} (r : result A) : io A := fun w => (r, w).

(** [try: body / except Exception as e: handler(e)] *)
Definition try_except {A} (body : io A) (handler : exn -> io A) : io A :=
  fun w =>
    match body w with
    | (Ok a, w') => (Ok a, w')
    | (Raise e, w') => handler e w'
    end.

(** [try: body / finally: cleanup]: [cleanup] runs however [body] ends;
    an exception of [cleanup] replaces the outcome of [body]. *)
Definition try_finally {A} (body : io A) (cleanup : io unit) : io A :=
  fun w =>
    let '(r, w') := body w in
    match cleanup w' with
    | (Ok _, w'') => (r, w'')
    | (Raise e, w'') => (Raise e, w'')
    end.

Definition emit (e : ui_event) : io unit :=
  fun w => (Ok (), {| outside := outside w; files := files w;
                      ui := ui w ++ [e] |}).

Definition call_service {A} (f : ext -> result A * ext) : io A :=
  fun w =>
    let '(r, x) := f (outside w) in
    (r, {| outside := x; files := files w; ui := ui w |}).

(** [response.choices[0].message.content] *)
Definition response_content (response : chat_completion)
  : result (option pystr) :=
  c ← list_getitem (choices response) 0; Ok (message_content c).

(** ** [extract_claims] (lines 24-65) *)

Definition extraction_prompt (text : pystr) : pystr :=
  join nl
    [ py "Analyze this document and extract ONLY specific, verifiable factual claims.";
      py "    Focus on:";
      py "    - Statistics and percentages";
      py "    - Dates and timelines";
      py "    - Financial figures (prices, revenues, market caps, GDP)";
      py "    - Technical specifications";
      py "    - Quantifiable statements";
      py "    ";
      py "    Return ONLY a JSON array of claims, nothing else. No markdown, no explanations.";
      pyq "    Format: [{'claim': 'specific claim here'}, ...]";
      py "    ";
      py "    Document:";
      py "    " ++ take (N.to_nat 8000) text;
      py "    " ].

Definition extraction_request (text : pystr) : chat_request :=
  {| model := py "gpt-4o-mini";
     system_content :=
       py "You are a precise claim extractor. Return only valid JSON.";
     user_content := extraction_prompt text;
     temperature := py "0.3" |}.

(** Lines 43-59: the request and the clean-up of its answer. *)
Definition extraction_answer (text : pystr) : io pystr :=
  response ← call_service (chat_completions_create (extraction_request text));
  content ← lift (response_content response);
  lift (clean_response content).

(** Lines 61-62: [json.loads] and [[c['claim'] for c in claims_data]]. *)
Definition parse_claims (claims_json : pystr) : result (list json) :=
  claims_data ← json_loads claims_json;
  items ← py_iter claims_data;
  traverse (fun c => py_getitem c (py "claim")) items.

Definition extract_claims (text : pystr) : io (list json) :=
  try_except
    (claims_json ← extraction_answer text;
     lift (parse_claims claims_json))
    (fun e =>
       emit (Text Error (py "Error extracting claims: " ++ exn_str e));;
       mret []).

(** ** [verify_claim] (lines 67-128) *)

Definition verification_prompt (claim : json) (context : pystr) : pystr :=
  join nl
    [ py "Given this claim and web search results, determine if the claim is:";
      pyq "        - 'Verified' (accurate based on current data)";
      pyq "        - 'Inaccurate' (outdated or slightly wrong)";
      pyq "        - 'False' (contradicts evidence or no support found)";
      py "        ";
      py "        Claim: " ++ py_str claim;
      py "        ";
      py "        Search Results:";
      py "        " ++ context;
      py "        ";
      py "        Return ONLY a JSON object, no markdown, no explanations:";
      py "        {";
      pyq "            'status': 'Verified/Inaccurate/False',";
      pyq "            'explanation': 'brief explanation with specific facts',";
      pyq "            'sources': ['url1', 'url2']";
      py "        }";
      py "        " ].

(** The Verdict of the [except] branch. *)
Definition error_verdict (claim : json) (e : exn) : json :=
  JDict (<[py "claim" := claim]>
        (<[py "status" := JStr (py "Error")]>
        (<[py "explanation" := JStr (py "Could not verify: " ++ exn_str e)]>
        (<[py "sources" := JList []]> ∅)))).

(** Lines 78-81: the context built from the search results. *)
Definition evidence_context (search_results : json) : result pystr :=
  results ← py_get search_results (py "results") (JList []);
  items ← py_iter results;
  parts ← traverse (fun r =>
             url ← py_getitem r (py "url");
             content ← py_getitem r (py "content");
             Ok (py "Source: " ++ py_str url ++ nl ++ py_str content))
           items;
  Ok (join (nl ++ nl) parts).

Definition classification_request (claim : json) (context : pystr)
  : chat_request :=
  {| model := py "gpt-4o-mini";
     system_content := py "You are a fact checker. Return only valid JSON.";
     user_content := verification_prompt claim context;
     temperature := py "0.3" |}.

(** Lines 72-116: the search, the request and the clean-up of its
    answer. *)
Definition classification_answer (claim : json) : io pystr :=
  search_results ← call_service (tavily_search claim 3);
  context ← lift (evidence_context search_results);
  response ← call_service
    (chat_completions_create (classification_request claim context));
  content ← lift (response_content response);
  lift (clean_response content).

(** Lines 118-121: [json.loads], then [result['claim'] = claim]. *)
Definition attach_claim (claim : json) (result_json : pystr) : result json :=
  result ← json_loads result_json;
  py_setitem result (py "claim") claim.

Definition verify_claim (claim : json) : io json :=
  try_except
    (result_json ← classification_answer claim;
     lift (attach_claim claim result_json))
    (fun e => mret (error_verdict claim e)).

(** ** The page: one run for one uploaded document (lines 138-220) *)

(** Lines 163-173: the verification loop.  [total] is [len(claims)], [i]
    the index [enumerate] gives, [results] the list built so far. *)
Fixpoint verify_each (total i : nat) (claims results : list json)
  : io (list json) :=
  match claims with
  | [] => mret results
  | claim :: rest =>
      emit (Text Placeholder
              (py "Verifying claim " ++ py_str (JInt (Z.of_nat (i + 1)))
               ++ py "/" ++ py_str (JInt (Z.of_nat total)) ++ py "..."));;
      verification ← verify_claim claim;
      let results := results ++ [verification] in
      emit (Progress (i + 1) total);;
      verify_each total (S i) rest results
  end.

Definition verify_all (claims : list json) : io (list json) :=
  emit (Progress 0 1);;
  results ← verify_each (length claims) 0 claims [];
  emit PlaceholderEmpty;;
  mret results.

(** [sum(1 for r in results if r['status'] == label)] *)
Fixpoint count_status (label : pystr) (results : list json) : result nat :=
  match results with
  | [] => Ok 0%nat
  | r :: rest =>
      status ← py_getitem r (py "status");
      n ← count_status label rest;
      Ok (if py_eq_str status label then S n else n)
  end.

(** Lines 179-181: the three counts of the summary. *)
Definition summary_counts (results : list json) : result (nat * nat * nat) :=
  verified_count ← count_status (py "Verified") results;
  inaccurate_count ← count_status (py "Inaccurate") results;
  false_count ← count_status (py "False") results;
  Ok (verified_count, inaccurate_count, false_count).

(** [status_emoji.get(status, "?")], the default being U+2753. *)
Definition status_emoji (status : json) : result pystr :=
  match status with
  | JList _ | JDict _ => Raise (TypeError Unhashable status)
  | JStr s =>
      Ok (if bool_decide (s = py "Verified") then [9989]
          else if bool_decide (s = py "Inaccurate") then [9888; 65039]
          else if bool_decide (s = py "False") then [10060]
          else if bool_decide (s = py "Error") then [128308]
          else [10067])
  | _ => Ok [10067]
  end.

(** [c[:100] + "..." if len(c) > 100 else c].  Slicing a long dict
    raises as well (which exception depends on the interpreter). *)
Definition claim_preview (claim : json) : result json :=
  n ← py_len claim;
  if (100 <? n)%nat then
    match claim with
    | JStr s => Ok (JStr (take 100 s ++ py "..."))
    | _ => Raise (TypeError BadOperand claim)
    end
  else Ok claim.

(** Lines 198-209, for one [result]. *)
Definition display_result (result : json) : io unit :=
  status ← lift (py_getitem result (py "status"));
  emoji ← lift (status_emoji status);
  claim ← lift (py_getitem result (py "claim"));
  preview ← lift (claim_preview claim);
  emit (Text Expander (emoji ++ py " " ++ py_str preview));;
  status ← lift (py_getitem result (py "status"));
  emit (Text Markdown (py "**Status:** " ++ py_str status));;
  claim ← lift (py_getitem result (py "claim"));
  emit (Text Markdown (py "**Claim:** " ++ py_str claim));;
  explanation ← lift (py_getitem result (py "explanation"));
  emit (Text Markdown (py "**Finding:** " ++ py_str explanation));;
  sources ← lift (py_get result (py "sources") JNull);
  if py_truthy sources then
    emit (Text Markdown (py "**Sources:**"));;
    sources ← lift (py_getitem result (py "sources"));
    items ← lift (py_iter sources);
    foldr (fun source rest =>
             emit (Text Markdown (py "- " ++ py_str source));; rest)
          (mret ()) items
  else mret ().

(** Lines 158-211: what the page does with the extracted claims. *)
Definition report (claims : list json) : io unit :=
  match claims with
  | _ :: _ =>
      emit (Text Subheader ([128203] ++ py " Extracted Claims"));;
      emit (Text Write (py "Found " ++ py_str (JInt (Z.of_nat (length claims)))
                        ++ py " claims to verify"));;
      results ← verify_all claims;
      emit (Text Subheader ([9989] ++ py " Verification Results"));;
      '(verified_count, inaccurate_count, false_count) ←
        lift (summary_counts results);
      emit (Columns 3);;
      emit (Metric ([9989] ++ py " Verified") verified_count);;
      emit (Metric ([9888; 65039] ++ py " Inaccurate") inaccurate_count);;
      emit (Metric ([10060] ++ py " False") false_count);;
      emit (Text Markdown (py "---"));;
      foldr (fun result rest => display_result result;; rest) (mret ()) results
  | [] => emit (Text Warning (py "No verifiable claims found in the document."))
  end.

(** [PyPDFLoader(pdf_path).load()], as the list of the pages' text. *)
Definition load_pages (pdf_path : pystr) : io (list pystr) :=
  fun w =>
    let '(r, fs, x) := pdf_load pdf_path (files w) (outside w) in
    (r, {| outside := x; files := fs; ui := ui w |}).

(** [os.path.exists] and [os.unlink] *)
Definition os_path_exists (path : pystr) : io bool :=
  fun w => (Ok (bool_decide (is_Some (files w !! path))), w).

Definition os_unlink (path : pystr) : io unit :=
  fun w =>
    match files w !! path with
    | Some _ => (Ok (), {| outside := outside w; files := delete path (files w);
                           ui := ui w |})
    | None => (Raise (FileNotFoundError path), w)
    end.

(** Lines 140-142: the upload is written to a temporary file that is
    kept when it is closed ([delete=False]); [pdf_path] is the name the
    operating system gave it. *)
Definition save_upload (pdf_path : pystr) (data : list N) : io unit :=
  fun w => (Ok (), {| outside := outside w;
                      files := <[pdf_path := data]> (files w); ui := ui w |}).

(** Lines 216-218: the body of [finally]. *)
Definition remove_temp (pdf_path : pystr) : io unit :=
  found ← os_path_exists pdf_path;
  if (found : bool) then os_unlink pdf_path else mret ().

(** Lines 145-218: [try] / [except Exception] / [finally]. *)
Definition process_pdf (pdf_path : pystr) : io unit :=
  try_finally
    (try_except
       (pages ← load_pages pdf_path;
        let text := join (py " ") pages in
        emit (Text Success (py "PDF text extracted successfully!"));;
        emit (Text Subheader
                ([128269] ++ py " Text Preview (first 500 characters)"));;
        emit (Text Write (take 500 text));;
        emit (Text Spinner ([128269] ++ py " Extracting claims from document..."));;
        claims ← extract_claims text;
        report claims)
       (fun e => emit (Text Error (py "Error processing PDF: " ++ exn_str e))))
    (remove_temp pdf_path).

Definition page (uploaded_file : option (list N)) (pdf_path : pystr) : io unit :=
  match uploaded_file with
  | Some data => save_upload pdf_path data;; process_pdf pdf_path
  | None => emit (Text Info ([128070] ++ py " Upload a PDF file to get started"))
  end.

End Pipeline.

(** ** Notions of the specification *)

(** The four status values of a Verdict. *)
Definition labels : list pystr :=
  [py "Verified"; py "Inaccurate"; py "False"; py "Error"].

(** The status [st] is one of the four labels. *)
Definition is_label (st : json) : bool :=
  match st with
  | JStr l => bool_decide (l ∈ labels)
  | _ => false
  end.

(** The Verdict [v] has a status, and it is one of the four labels. *)
Definition has_label (v : json) : bool :=
  match py_getitem v (py "status") with
  | Ok (JStr l) => bool_decide (l ∈ labels)
  | _ => false
  end.

(** The fourth count of the specification's summary.  [app.py] computes
    three counts only (lines 179-181); this one is written the way they
    are, for the label [Error]. *)
Definition error_count (results : list json) : result nat :=
  count_status (py "Error") results.

(** What one Verdict adds to a count. *)
Definition indicator (b : bool) : nat := if b then 1%nat else 0%nat.

(** A claim that is a string and is not empty once trimmed. *)
Definition nonblank (c : json) : bool :=
  match c with
  | JStr s => negb (bool_decide (strip s = []))
  | _ => false
  end.

(** [s] holds no occurrence of the fence. *)
Definition no_fence (s : pystr) : Prop :=
  ∀ k, startswith (drop k s) fence = false.

(** The pieces [l] of a split, the first one read after [cur]. *)
Definition with_cur (cur : pystr) (l : list pystr) : list pystr :=
  match l with
  | h :: r => (cur ++ h) :: r
  | [] => []
  end.

(** An element of the decoded array that is an object with a [claim]
    key. *)
Definition is_claim_object (c : json) : bool :=
  match c with
  | JDict d => bool_decide (is_Some (d !! py "claim"))
  | _ => false
  end.

(** ** Test doubles

    Scripted collaborators for the closed examples: the text-generation
    service and the search service answer from a list of prepared replies,
    the loader returns prepared pages and leaves the disk alone; the
    interpreter's texts are stand-ins. *)
Module Double.

Record state : Type := {
  chat_replies : list (result chat_completion);
  search_replies : list (result json);
  pages : result (list pystr)
}.

Definition chat (_ : chat_request) (st : state)
  : result chat_completion * state :=
  match chat_replies st with
  | r :: rest =>
      (r, {| chat_replies := rest; search_replies := search_replies st;
             pages := pages st |})
  | [] => (Raise (ServiceError (py "no reply left")), st)
  end.

Definition search (_ : json) (_ : nat) (st : state) : result json * state :=
  match search_replies st with
  | r :: rest =>
      (r, {| chat_replies := chat_replies st; search_replies := rest;
             pages := pages st |})
  | [] => (Raise (ServiceError (py "no reply left")), st)
  end.

Definition load (_ : pystr) (fs : gmap pystr (list N)) (st : state)
  : result (list pystr) * gmap pystr (list N) * state :=
  (pages st, fs, st).

Definition services : Services :=
  {| ext := state; chat_completions_create := chat;
     tavily_search := search; pdf_load := load |}.

Definition repr (v : json) : pystr :=
  match v with
  | JNull => py "None"
  | JBool true => py "True"
  | JBool false => py "False"
  | JInt z => py (pretty z)
  | JFloat l => l
  | _ => py "<object>"
  end.

Definition message (e : exn) : pystr :=
  match e with
  | KeyError k => [39] ++ k ++ [39]
  | TypeError _ _ => py "unsupported operation"
  | AttributeError a => py "object has no attribute " ++ a
  | IndexError => py "list index out of range"
  | JSONDecodeError _ => py "Expecting value"
  | FileNotFoundError path => py "No such file or directory: " ++ path
  | ServiceError msg => msg
  end.

Definition zero_literal (l : pystr) : bool :=
  existsb is_digit l && forallb (fun c => negb (is_digit c) || (c =? 48)) l.

Definition runtime : Runtime :=
  {| py_repr := repr; exn_str := message; float_is_zero := zero_literal |}.

(** A completion whose only choice has the content [text]. *)
Definition says (text : pystr) : result chat_completion :=
  Ok {| choices := [ {| message_content := Some text |} ] |}.

(** A search answer with no result. *)
Definition no_results : result json :=
  Ok (JDict (<[py "results" := JList []]> ∅)).

(** The world at the start of a run. *)
Definition start (chats : list (result chat_completion))
    (searches : list (result json)) (pgs : result (list pystr))
  : @world services :=
  @Build_world services
    {| chat_replies := chats; search_replies := searches; pages := pgs |}
    ∅ [].

(** The program on the doubles. *)
Definition extract := @extract_claims runtime services.
Definition verify := @verify_claim runtime services.
Definition verify_claims := @verify_all runtime services.
Definition run := @page runtime services.

End Double.

(** ** Scripted runs *)

Module Examples.

Definition claim : json := JStr (py "Revenue grew 40% in 2023").

(** The service classifies with a label of its own. *)
Definition other_label : @world Double.services :=
  Double.start
    [Double.says (pyq "{'status': 'Unverifiable', 'explanation': 'no data', 'sources': []}")]
    [Double.no_results] (Ok []).

(** The service answers with an object that has no [status] and no
    [sources]. *)
Definition fields_missing : @world Double.services :=
  Double.start
    [Double.says (pyq "{'explanation': 'The figure matches the annual report.'}")]
    [Double.no_results] (Ok []).

(** The service extracts two claims, the second one blank. *)
Definition blank_claim : @world Double.services :=
  Double.start
    [Double.says (pyq "[{'claim': 'GDP grew 3% in 2022'}, {'claim': '  '}]")]
    [] (Ok []).

(** The second element of the array has no [claim] key. *)
Definition one_bad_element : @world Double.services :=
  Double.start
    [Double.says (pyq "[{'claim': 'GDP grew 3% in 2022'}, {'text': 'Prices rose'}]")]
    [] (Ok []).

(** An upload whose first claim meets a network failure of the search
    and whose second claim is verified. *)
Definition second_claim : json := JStr (py "GDP grew 3% in 2022").

Definition search_fails_once : @world Double.services :=
  Double.start
    [Double.says (pyq "{'status': 'Verified', 'explanation': 'Confirmed.', 'sources': ['https://example.org/gdp']}")]
    [Raise (ServiceError (py "connection reset")); Double.no_results]
    (Ok []).

(** A document with one claim, which is verified. *)
Definition one_verified_claim : @world Double.services :=
  Double.start
    [Double.says (pyq "```json
[{'claim': 'Revenue grew 40% in 2023'}]
```");
     Double.says (pyq "{'status': 'Verified', 'explanation': 'Confirmed.', 'sources': []}")]
    [Double.no_results]
    (Ok [py "Revenue grew 40% in 2023."; py "Thank you."]).

(** A document without any claim, and a file that is no PDF. *)
Definition no_claim : @world Double.services :=
  Double.start [Double.says (pyq "[]")] [] (Ok [py "Hello."]).

Definition not_a_pdf : @world Double.services :=
  Double.start [] [] (Raise (ServiceError (py "not a PDF"))).

Definition temp_path : pystr := py "/tmp/tmpk3x9.pdf".

End Examples.

(** ** The API keys (lines 13-19)

    [st.secrets] is the table read from the secrets file, if there is one;
    [os.getenv] gives the value of an environment variable or [None]. *)




(** ** Notions for the effects of a statement *)

Section Effects.
Context {RT : Runtime} {SV : Services}.

(** The statement [m] leaves the part [part] of the world as it is,
    whether it returns or raises. *)
Definition keeps {X A} (part : world -> X) (m : io A) : Prop :=
  ∀ w, part (m w).2 = part w.

(** [m] leaves the files on disk as they are; [m] shows nothing on the
    page. *)
Definition keeps_files {A} (m : io A) : Prop := keeps files m.
Definition keeps_ui {A} (m : io A) : Prop := keeps ui m.

(** What one turn of the verification loop shows: the status line and
    the progress of claim [i] out of [total]. *)
Definition loop_events (total i : nat) : list ui_event :=
  [ Text Placeholder
      (py "Verifying claim " ++ py_str (JInt (Z.of_nat (i + 1)))
       ++ py "/" ++ py_str (JInt (Z.of_nat total)) ++ py "...");
    Progress (i + 1) total ].

(** The fraction given to the progress bar lies between 0 and 1. *)
Definition progress_in_range (e : ui_event) : Prop :=
  match e with
  | Progress num den => (num ≤ den)%nat ∧ (0 < den)%nat
  | _ => True
  end.

End Effects.

(** [s] holds no backtick. *)
Definition no_backtick (s : pystr) : bool :=
  forallb (fun c => negb (c =? 96)) s.

(** The text between the fences without its [json] tag (lines 57-58). *)
Definition untag (inner : pystr) : pystr :=
  if startswith inner json_tag then drop 4 inner else inner.

(** ** More scripted runs *)

Module Cases.

(** Two documents that differ after their first 8000 characters only. *)
Definition long_text (ending : pystr) : pystr :=
  replicate (N.to_nat 8000) 97 ++ ending.


(** The service echoes another claim than the one it was given. *)
Definition other_claim_echoed : @world Double.services :=
  Double.start
    [Double.says (pyq "{'claim': 'Revenue fell', 'status': 'Verified', 'explanation': 'Confirmed.', 'sources': []}")]
    [Double.no_results] (Ok []).

(** The extraction request meets a rate limit. *)
Definition rate_limited : @world Double.services :=
  Double.start [Raise (ServiceError (py "rate limit reached"))] []
    (Ok [py "Revenue grew 40% in 2023."; py "Thank you."]).

(** The service answers without any choice, and with blank text. *)
Definition no_choice : @world Double.services :=
  Double.start [Ok {| choices := [] |}] [Double.no_results] (Ok []).

Definition blank_answer : @world Double.services :=
  Double.start [Double.says ([32; 10] ++ [9])] [] (Ok []).


(** The array of one claim, and the world where the service gives it
    fenced, tagged and followed by a remark. *)
Definition claims_text : pystr := pyq "[{'claim': 'x'}]".


End Cases.

(** ** Notions for the decoder *)

(** The four stages of [match_number]: the sign, the integer part, the
    fraction and the exponent, each with the text that follows it. *)
Definition num_sign (s : pystr) : pystr * pystr :=
  match s with
  | c :: r => if c =? 45 then ([c], r) else ([], s)
  | [] => ([], s)
  end.

Definition num_int (s1 : pystr) : option (pystr * pystr) :=
  match s1 with
  | c :: r =>
      if (49 <=? c) && (c <=? 57)
      then let '(ds, r') := span_digits r in Some (c :: ds, r')
      else if c =? 48 then Some ([c], r)
      else None
  | [] => None
  end.

Definition num_frac (r1 : pystr) : pystr * pystr :=
  match r1 with
  | dot :: d :: r =>
      if (dot =? 46) && is_digit d
      then let '(ds, r') := span_digits r in (dot :: d :: ds, r')
      else ([], r1)
  | _ => ([], r1)
  end.

Definition num_exp (r2 : pystr) : pystr * pystr :=
  match r2 with
  | e :: r =>
      if (e =? 101) || (e =? 69) then
        let '(sg, r') :=
          match r with
          | c :: t => if (c =? 45) || (c =? 43) then ([c], t) else ([], r)
          | [] => ([], r)
          end in
        let '(ds, r'') := span_digits r' in
        match ds with
        | [] => ([], r2)
        | _ => (e :: sg ++ ds, r'')
        end
      else ([], r2)
  | [] => ([], r2)
  end.

(** The value a number lexeme stands for. *)
Definition num_value (sign ip frac ex : pystr) : json :=
  match frac, ex with
  | [], [] =>
      JInt (match sign with
            | [] => int_of_digits ip
            | _ => - int_of_digits ip
            end)%Z
  | _, _ => JFloat (sign ++ ip ++ frac ++ ex)
  end.

(** The two halves of a surrogate pair in a [\uXXXX] escape. *)
Definition is_high (u : N) : bool := (55296 <=? u) && (u <=? 56319).
Definition is_low (u : N) : bool := (56320 <=? u) && (u <=? 57343).

(** A character a JSON value can begin with. *)
Definition value_start (c : N) : bool :=
  (c =? 34) || (c =? 123) || (c =? 91) || (c =? 110) || (c =? 116)
  || (c =? 102) || (c =? 78) || (c =? 73) || (c =? 45) || is_digit c.

(** A character a JSON value can end with: a quote, a bracket, a digit
    or a letter. *)
Definition value_end (c : N) : bool :=
  (c =? 34) || (c =? 125) || (c =? 93) || is_digit c
  || ((65 <=? c) && (c <=? 90)) || ((97 <=? c) && (c <=? 122)).

(** The text [u] of a value: it begins and ends with such characters. *)
Definition value_text (u : pystr) : Prop :=
  ∃ c u', u = c :: u' ∧ value_start c = true ∧
          ∃ u'' d, u = u'' ++ [d] ∧ value_end d = true.

(** The text [x] does not begin with a character of the class [bad]. *)
Definition next_ok (bad : N -> bool) (x : pystr) : bool :=
  match x with
  | [] => true
  | c :: _ => negb (bad c)
  end.

Definition is_dot (c : N) : bool := c =? 46.
Definition is_exp_mark (c : N) : bool := (c =? 101) || (c =? 69).
Definition is_minus (c : N) : bool := c =? 45.

(** The text [s] begins as a number does: with a digit, or with a minus
    sign and a digit. *)
Definition number_start (s : pystr) : bool :=
  match s with
  | c :: rest =>
      is_digit c
      || (is_minus c && match rest with d :: _ => is_digit d | [] => false end)
  | [] => false
  end.

(** The text [l] ends with a digit. *)
Definition ends_digit (l : pystr) : Prop :=
  ∃ b d, l = b ++ [d] ∧ is_digit d = true.

(** What may follow a value: nothing, whitespace, a comma or a closing
    bracket. *)
Definition delimited (r : pystr) : bool :=
  match r with
  | [] => true
  | c :: _ => is_json_ws c || (c =? 44) || (c =? 93) || (c =? 125)
  end.

(** What the scanner returns with fuel [n] depends on the text of the
    value only: the text [s] is [u] followed by the text [r] that is left,
    and [u] followed by any other such text gives the same value, with any
    fuel that is at least twice the length of [u]. *)
Definition scan_local (n : nat) : Prop :=
  ∀ s v r,
    scan_once n s = Some (v, r) → delimited r = true →
    ∃ u, s = u ++ r ∧ value_text u ∧
         ∀ m r', (2 * length u ≤ m + 1)%nat → delimited r' = true →
                 scan_once m (u ++ r') = Some (v, r').

(** The same for the elements of an array up to its closing bracket
    (character 93) and for the members of an object up to its closing
    brace (character 125). *)
Definition elements_local (n : nat) : Prop :=
  ∀ s acc v r,
    parse_elements n s acc = Some (v, r) →
    ∃ u, s = u ++ 93 :: r ∧
         ∀ m r', (2 * length u + 2 ≤ m)%nat →
                 parse_elements m (u ++ 93 :: r') acc = Some (v, r').

Definition members_local (n : nat) : Prop :=
  ∀ s acc v r,
    parse_members n s acc = Some (v, r) →
    ∃ u, s = u ++ 125 :: r ∧
         ∀ m r', (2 * length u + 2 ≤ m)%nat →
                 parse_members m (u ++ 125 :: r') acc = Some (v, r').

(** ** Proof steps

    [bool_lia] turns the boolean comparisons of code points into
    arithmetic and calls [lia]; [len] settles a bound on lengths; [norm]
    and [lists] put concatenations in right-nested form. *)

Ltac bool_lia :=
  repeat match goal with
  | H : _ && _ = true |- _ => apply andb_true_iff in H as [? ?]
  | H : _ || _ = true |- _ => apply orb_true_iff in H as [?|?]
  | H : _ && _ = false |- _ => apply andb_false_iff in H as [?|?]
  | H : _ || _ = false |- _ => apply orb_false_iff in H as [? ?]
  | H : negb _ = true |- _ => apply negb_true_iff in H
  | H : negb _ = false |- _ => apply negb_false_iff in H
  | H : (_ =? _) = true |- _ => apply N.eqb_eq in H
  | H : (_ =? _) = false |- _ => apply N.eqb_neq in H
  | H : (_ <=? _) = true |- _ => apply N.leb_le in H
  | H : (_ <=? _) = false |- _ => apply N.leb_gt in H
  | H : (_ <? _) = true |- _ => apply N.ltb_lt in H
  | H : (_ <? _) = false |- _ => apply N.ltb_ge in H
  end;
  repeat match goal with
  | |- _ && _ = true => apply andb_true_iff; split
  | |- _ || _ = false => apply orb_false_iff; split
  | |- negb _ = true => apply negb_true_iff
  | |- negb _ = false => apply negb_false_iff
  | |- (_ =? _) = true => apply N.eqb_eq
  | |- (_ =? _) = false => apply N.eqb_neq
  | |- (_ <=? _) = true => apply N.leb_le
  | |- (_ <=? _) = false => apply N.leb_gt
  end;
  try lia; try (subst; reflexivity).

Ltac len :=
  repeat first [rewrite length_app in * | progress cbn [length] in * ];
  lia.
Ltac norm := repeat (rewrite <- ?(assoc_L (++)); cbn [app]).
Ltac lists := norm; done.

(** * Properties *)

(** * The decoder on a few texts *)

Example json_loads_object :
  json_loads (pyq " {'status': 'False', 'sources': ['u', 2, -1.5e3, null, true], 'status': 'Verified'} ")
  = Ok (JDict (<[py "status" := JStr (py "Verified")]>
              (<[py "sources" :=
                   JList [JStr (py "u"); JInt 2; JFloat (py "-1.5e3"); JNull;
                          JBool true]]> ∅))).
Proof. vm_compute. reflexivity. Qed.

Example json_loads_nested :
  json_loads (py "[[[[[[[[0]]]]]]]]")
  = Ok (JList [JList [JList [JList [JList [JList [JList [JList [JInt 0]]]]]]]]).
Proof. vm_compute. reflexivity. Qed.

Example json_loads_escapes :
  json_loads (pyq "'a\u00e9\n\ud83d\ude00'")
  = Ok (JStr [97; 233; 10; 128512]).
Proof. vm_compute. reflexivity. Qed.

Example json_loads_rejects :
  json_loads (py "") = Raise (JSONDecodeError (py "")) ∧
  json_loads (py "[1,]") = Raise (JSONDecodeError (py "[1,]")) ∧
  json_loads (py "[1] x") = Raise (JSONDecodeError (py "[1] x")) ∧
  json_loads (py "01") = Raise (JSONDecodeError (py "01")) ∧
  json_loads (pyq "{'a' 1}") = Raise (JSONDecodeError (pyq "{'a' 1}")) ∧
  json_loads (py "{claim: 1}") = Raise (JSONDecodeError (py "{claim: 1}")) ∧
  json_loads (py "Sorry, I cannot help.")
  = Raise (JSONDecodeError (py "Sorry, I cannot help.")).
Proof. repeat split; vm_compute; reflexivity. Qed.

(** The clean-up on the two fenced forms and on a bare answer. *)
Example clean_response_forms :
  clean_response (Some (pyq "```json
[{'claim': 'x'}]
```
")) = Ok (pyq "[{'claim': 'x'}]") ∧
  clean_response (Some (pyq "```
[{'claim': 'x'}]
```")) = Ok (pyq "[{'claim': 'x'}]") ∧
  clean_response (Some (pyq "[{'claim': 'x'}]")) = Ok (pyq "[{'claim': 'x'}]") ∧
  clean_response None = Raise (AttributeError (py "strip")).
Proof. repeat split; vm_compute; reflexivity. Qed.

(** * Strings *)

Lemma lstrip_drop s : ∃ k, lstrip s = drop k s.
Proof.
  induction s as [|c s [k IH]]; simpl.
  - by exists 0%nat.
  - destruct (isspace c); [by exists (S k) | by exists 0%nat].
Qed.

Lemma lstrip_fixed s : lstrip (lstrip s) = lstrip s.
Proof.
  induction s as [|c s IH]; simpl; [done|].
  destruct (isspace c) eqn:E; [done|]. simpl. by rewrite E.
Qed.

Lemma rstrip_cons c s : isspace c = false → rstrip (c :: s) = c :: rstrip s.
Proof. intros E. simpl. rewrite E. by destruct (rstrip s). Qed.

Lemma rstrip_fixed s : rstrip (rstrip s) = rstrip s.
Proof.
  induction s as [|c s IH]; simpl; [done|].
  destruct (rstrip s) as [|d r] eqn:R.
  - destruct (isspace c) eqn:E; simpl; [done | by rewrite E].
  - change (rstrip (c :: d :: r) = c :: d :: r).
    simpl. simpl in IH. by rewrite IH.
Qed.

Lemma rstrip_prefix s : ∃ k, s = rstrip s ++ k.
Proof.
  induction s as [|c s [k IH]]; simpl.
  - by exists [].
  - destruct (rstrip s) as [|d r].
    + destruct (isspace c); [by exists (c :: s) | exists s; done].
    + exists k. simpl. by rewrite IH at 1.
Qed.

Lemma lstrip_rstrip s : lstrip (rstrip (lstrip s)) = rstrip (lstrip s).
Proof.
  induction s as [|c s IH]; simpl; [done|].
  destruct (isspace c) eqn:E; [done|].
  rewrite (rstrip_cons _ _ E). simpl. by rewrite E.
Qed.

Lemma strip_fixed s : strip (strip s) = strip s.
Proof. unfold strip. by rewrite lstrip_rstrip, rstrip_fixed. Qed.

Lemma rstrip_snoc s c : isspace c = false → rstrip (s ++ [c]) = s ++ [c].
Proof.
  intros E. induction s as [|d s IH]; simpl; [by rewrite E|].
  rewrite IH. by destruct s.
Qed.

Lemma startswith_spec s p : startswith s p = true ↔ ∃ r, s = p ++ r.
Proof.
  revert s. induction p as [|a p IH]; intros s; simpl.
  - split; [by exists s | done].
  - destruct s as [|b s].
    + split; [done | by intros [r ?]].
    + rewrite andb_true_iff, N.eqb_eq, IH. split.
      * intros [-> [r ->]]. by exists r.
      * intros [r [= -> ->]]. eauto.
Qed.

Lemma startswith_app s k p : startswith s p = true → startswith (s ++ k) p = true.
Proof.
  rewrite !startswith_spec. intros [r ->]. exists (r ++ k). by rewrite (assoc_L (++)).
Qed.


Lemma no_fence_drop n s : no_fence s → no_fence (drop n s).
Proof. intros Hs k. rewrite drop_drop. apply Hs. Qed.

Lemma no_fence_strip s : no_fence s → startswith (strip s) fence = false.
Proof.
  intros Hs. unfold strip. destruct (lstrip_drop s) as [k ->].
  destruct (rstrip_prefix (drop k s)) as [u Hu].
  destruct (startswith (rstrip (drop k s)) fence) eqn:E; [|done].
  apply (startswith_app _ u) in E. rewrite <- Hu in E. by rewrite Hs in E.
Qed.

(** * split *)


Lemma split_go_cur sep skip cur s :
  split_go sep skip cur s = with_cur cur (split_go sep skip [] s).
Proof.
  revert skip cur. induction s as [|c s IH]; intros skip cur; simpl.
  - by rewrite app_nil_r.
  - destruct skip as [|k]; [|apply IH].
    destruct (startswith (c :: s) sep).
    + simpl. by rewrite app_nil_r.
    + rewrite (IH 0%nat (cur ++ [c])), (IH 0%nat [c]).
      destruct (split_go sep 0 [] s); simpl; [done|]. by rewrite <- (assoc_L (++)).
Qed.

Lemma split_go_first s :
  ∃ q rest, split_go fence 0 [] s = q :: rest ∧ no_fence q ∧ ∃ k, s = q ++ k.
Proof.
  induction s as [|c s (q & rest & IH & Hq & k & Hk)].
  - exists [], []. split; [done|]. split; [|by exists []].
    intros k. by rewrite drop_nil.
  - cbn [split_go]. destruct (startswith (c :: s) fence) eqn:E.
    + eexists [], _. split; [done|]. split; [|by eexists].
      intros n. by rewrite drop_nil.
    + rewrite split_go_cur, IH. simpl. exists (c :: q), rest.
      split; [done|]. split; [|exists k; by rewrite Hk at 1].
      intros [|n]; simpl; [|apply Hq].
      destruct (startswith (c :: q) fence) eqn:E'; [|done].
      apply (startswith_app _ k) in E'. simpl in E'. rewrite <- Hk in E'.
      change (startswith (c :: s) fence = true) in E'. congruence.
Qed.

Lemma fence_chars : fence = [96; 96; 96].
Proof. reflexivity. Qed.

Lemma split_fenced s :
  startswith s fence = true →
  split s fence !! 1%nat = head (split_go fence 0 [] (drop 3 s)).
Proof.
  intros [r ->]%startswith_spec. unfold split. rewrite fence_chars.
  change ([96; 96; 96] ++ r) with (96 :: 96 :: 96 :: r).
  cbn [split_go drop length Nat.sub].
  change (startswith (96 :: 96 :: 96 :: r) [96; 96; 96]) with true.
  cbn iota. rewrite <- fence_chars.
  rewrite drop_0. destruct (split_go_first r) as (q & rest & -> & _). done.
Qed.

Lemma list_getitem_lookup {A} (l : list A) i x :
  l !! i = Some x → list_getitem l i = Ok x.
Proof. unfold list_getitem. by intros ->. Qed.

(** The [if] block never fails, and what it returns holds no fence when it
    found one at the start. *)
Lemma strip_fences_fenced s :
  startswith s fence = true →
  ∃ r, strip_fences s = Ok r ∧ no_fence r.
Proof.
  intros Hs. unfold strip_fences. rewrite Hs.
  destruct (split_go_first (drop 3 s)) as (q & rest & Hq & Hnf & _).
  rewrite (list_getitem_lookup _ _ q) by (by rewrite split_fenced, Hq).
  cbn [mbind result_bind].
  destruct (startswith q json_tag); eexists; (split; [done|]); [|done].
  by apply no_fence_drop.
Qed.

Lemma strip_fences_plain s : startswith s fence = false → strip_fences s = Ok s.
Proof. unfold strip_fences. by intros ->. Qed.

Lemma clean_response_plain s :
  startswith (strip s) fence = false → clean_response (Some s) = Ok (strip s).
Proof.
  intros Hs. unfold clean_response. cbn [content_strip mbind result_bind].
  rewrite (strip_fences_plain _ Hs). cbn. by rewrite strip_fixed.
Qed.

Lemma clean_response_fixed s :
  ∃ r, clean_response (Some s) = Ok r ∧ clean_response (Some r) = Ok r.
Proof.
  destruct (startswith (strip s) fence) eqn:E.
  - destruct (strip_fences_fenced _ E) as (x & Hx & Hnf).
    exists (strip x). split.
    + unfold clean_response. cbn [content_strip mbind result_bind]. by rewrite Hx.
    + rewrite clean_response_plain; rewrite strip_fixed; [done|].
      by apply no_fence_strip.
  - exists (strip s). split; [by apply clean_response_plain|].
    rewrite clean_response_plain; rewrite strip_fixed; done.
Qed.

Lemma strip_fenced_text body :
  strip (fence ++ body ++ fence) = fence ++ body ++ fence.
Proof.
  unfold strip. rewrite fence_chars. cbn [app lstrip].
  change (isspace 96) with false. cbn iota.
  change (96 :: 96 :: 96 :: body ++ [96; 96; 96])
    with ((96 :: 96 :: 96 :: body) ++ [96; 96; 96]).
  replace ((96 :: 96 :: 96 :: body) ++ [96; 96; 96])
    with (((96 :: 96 :: 96 :: body) ++ [96; 96]) ++ [96])
    by (by rewrite <- (assoc_L (++))).
  by apply rstrip_snoc.
Qed.

Lemma clean_response_json_tag p :
  clean_response (Some (py "```json" ++ nl ++ p ++ nl ++ fence))
  = clean_response (Some (fence ++ nl ++ p ++ nl ++ fence)).
Proof.
  set (t := p ++ nl ++ fence).
  destruct (split_go_first t) as (q & rest & Hq & _).
  assert (H1 : clean_response (Some (fence ++ (py "json" ++ nl ++ p ++ nl) ++ fence))
               = Ok (strip (10 :: q))).
  { unfold clean_response. cbn [content_strip mbind result_bind].
    rewrite strip_fenced_text.
    unfold strip_fences.
    replace (startswith (fence ++ (py "json" ++ nl ++ p ++ nl) ++ fence) fence)
      with true by (symmetry; apply startswith_spec; eauto).
    rewrite (list_getitem_lookup _ _ (py "json" ++ nl ++ q)).
    - cbn [mbind result_bind].
      change (startswith (py "json" ++ nl ++ q) json_tag) with true. done.
    - rewrite split_fenced by (apply startswith_spec; eauto).
      rewrite fence_chars at 2.
      change (drop 3 ([96; 96; 96] ++ (py "json" ++ nl ++ p ++ nl) ++ fence))
        with (106 :: 115 :: 111 :: 110 :: 10 :: (p ++ nl) ++ fence).
      replace ((p ++ nl) ++ fence) with t by (unfold t; by rewrite (assoc_L (++))).
      rewrite fence_chars. cbn [split_go startswith N.eqb Pos.eqb andb app].
      rewrite <- fence_chars, split_go_cur, Hq. done. }
  assert (H2 : clean_response (Some (fence ++ (nl ++ p ++ nl) ++ fence))
               = Ok (strip (10 :: q))).
  { unfold clean_response. cbn [content_strip mbind result_bind].
    rewrite strip_fenced_text.
    unfold strip_fences.
    replace (startswith (fence ++ (nl ++ p ++ nl) ++ fence) fence)
      with true by (symmetry; apply startswith_spec; eauto).
    rewrite (list_getitem_lookup _ _ (nl ++ q)).
    - cbn [mbind result_bind].
      change (startswith (nl ++ q) json_tag) with false. done.
    - rewrite split_fenced by (apply startswith_spec; eauto).
      rewrite fence_chars at 2.
      change (drop 3 ([96; 96; 96] ++ (nl ++ p ++ nl) ++ fence))
        with (10 :: (p ++ nl) ++ fence).
      replace ((p ++ nl) ++ fence) with t by (unfold t; by rewrite (assoc_L (++))).
      rewrite fence_chars. cbn [split_go startswith N.eqb Pos.eqb andb app].
      rewrite <- fence_chars, split_go_cur, Hq. done. }
  etrans; [|etrans; [exact H1|]]; [|symmetry; etrans; [|exact H2]]; do 2 f_equal.
  - change (py "```json") with (fence ++ py "json"). by rewrite <- !(assoc_L (++)).
  - by rewrite <- !(assoc_L (++)).
Qed.

(** C7 (amended).  The clean-up of a response (lines 53-59 and 110-116)
    trims the response, removes the fence, and trims again.  The [if] block
    alone leaves every string that does not begin with the fence as it is;
    the whole clean-up returns such a string trimmed, and leaves it as it
    is when it has no surrounding whitespace.  The clean-up never fails on
    a string and applying it twice is applying it once.  A payload fenced
    with the [json] tag and the same payload fenced without it are cleaned
    to the same text, so [json.loads] gives the same result for both. *)
Theorem fence_stripping_idempotent_and_lossless :
  (∀ s, startswith s fence = false → strip_fences s = Ok s) ∧
  (∀ s, startswith (strip s) fence = false →
        clean_response (Some s) = Ok (strip s)) ∧
  (∀ s, strip s = s → startswith s fence = false →
        clean_response (Some s) = Ok s) ∧
  (∀ s, ∃ r, clean_response (Some s) = Ok r ∧ clean_response (Some r) = Ok r) ∧
  (∀ p,
     clean_response (Some (py "```json" ++ nl ++ p ++ nl ++ fence))
     = clean_response (Some (fence ++ nl ++ p ++ nl ++ fence)) ∧
     (clean_response (Some (py "```json" ++ nl ++ p ++ nl ++ fence))
        ≫= json_loads)
     = (clean_response (Some (fence ++ nl ++ p ++ nl ++ fence)) ≫= json_loads)).
Proof.
  split; [exact strip_fences_plain|]. split; [exact clean_response_plain|].
  split; [|split; [exact clean_response_fixed|]].
  - intros s Hs Hf. rewrite <- Hs at 2. apply clean_response_plain.
    by rewrite Hs.
  - intros p. split; [apply clean_response_json_tag|].
    by rewrite clean_response_json_tag.
Qed.

(** A response that does not begin with the fence and is changed by the
    clean-up: its leading space is removed. *)
Lemma clean_response_trims :
  startswith (py " []") fence = false ∧
  clean_response (Some (py " []")) = Ok (py "[]") ∧
  clean_response (Some (py " []")) ≠ Ok (py " []").
Proof. repeat split. vm_compute. discriminate. Qed.

(** * The summary *)



Lemma indicator_sum st :
  (indicator (py_eq_str st (py "Verified"))
   + indicator (py_eq_str st (py "Inaccurate"))
   + indicator (py_eq_str st (py "False"))
   + indicator (py_eq_str st (py "Error")))%nat
  = indicator (is_label st).
Proof.
  destruct st as [| | | |s| |]; try reflexivity.
  unfold py_eq_str, is_label, labels.
  destruct (decide (s = py "Verified")) as [->|];
    [reflexivity|rewrite (bool_decide_eq_false_2 (s = py "Verified")) by done].
  destruct (decide (s = py "Inaccurate")) as [->|];
    [reflexivity|rewrite (bool_decide_eq_false_2 (s = py "Inaccurate")) by done].
  destruct (decide (s = py "False")) as [->|];
    [reflexivity|rewrite (bool_decide_eq_false_2 (s = py "False")) by done].
  destruct (decide (s = py "Error")) as [->|];
    [reflexivity|rewrite (bool_decide_eq_false_2 (s = py "Error")) by done].
  rewrite bool_decide_eq_false_2; [reflexivity|].
  rewrite !elem_of_cons, elem_of_nil. tauto.
Qed.

Lemma count_status_step label r rest n :
  count_status label (r :: rest) = Ok n →
  ∃ st m, py_getitem r (py "status") = Ok st ∧
          count_status label rest = Ok m ∧
          n = (indicator (py_eq_str st label) + m)%nat.
Proof.
  cbn [count_status]. destruct (py_getitem r (py "status")) as [st|]; [|done].
  cbn [mbind result_bind]. destruct (count_status label rest) as [m|]; [|done].
  cbn [mbind result_bind]. intros [= <-]. exists st, m.
  by destruct (py_eq_str st label).
Qed.

Lemma summary_counts_inv results a b c :
  summary_counts results = Ok (a, b, c) →
  count_status (py "Verified") results = Ok a ∧
  count_status (py "Inaccurate") results = Ok b ∧
  count_status (py "False") results = Ok c.
Proof.
  unfold summary_counts.
  destruct (count_status (py "Verified") results); [|done].
  destruct (count_status (py "Inaccurate") results); [|done].
  destruct (count_status (py "False") results); [|done].
  cbn. by intros [= -> -> ->].
Qed.

Lemma counts_partition results : ∀ a b c e,
  count_status (py "Verified") results = Ok a →
  count_status (py "Inaccurate") results = Ok b →
  count_status (py "False") results = Ok c →
  count_status (py "Error") results = Ok e →
  (a + b + c + e ≤ length results)%nat ∧
  ((a + b + c + e)%nat = length results ↔
   Forall (fun r => has_label r = true) results).
Proof.
  induction results as [|r rest IH]; intros a b c e Ha Hb Hc He.
  - cbn in *. simplify_eq. split; [done|]. split; [constructor|done].
  - apply count_status_step in Ha as (st & a' & Hst & Ha & ->).
    apply count_status_step in Hb as (st2 & b' & Hst2 & Hb & ->).
    apply count_status_step in Hc as (st3 & c' & Hst3 & Hc & ->).
    apply count_status_step in He as (st4 & e' & Hst4 & He & ->).
    rewrite Hst in Hst2, Hst3, Hst4.
    injection Hst2 as <-. injection Hst3 as <-. injection Hst4 as <-.
    destruct (IH _ _ _ _ Ha Hb Hc He) as [Hle Hiff].
    pose proof (indicator_sum st) as Hsum.
    assert (Hl : has_label r = is_label st).
    { unfold has_label. rewrite Hst. by destruct st. }
    rewrite Forall_cons, Hl, <- Hiff. cbn [length].
    destruct (is_label st); cbn [indicator] in Hsum.
    + split; [lia|]. split; [intros; split; [done|lia] | intros [_ ?]; lia].
    + split; [lia|]. split; [lia | by intros [? _]].
Qed.

(** C3 (amended).  When the three counts of lines 179-181 are computed
    (every Verdict has a status), they and the count of the Verdicts whose
    status is [Error] sum to at most the number of Verdicts, and to exactly
    that number if and only if the status of every Verdict is one of
    Verified, Inaccurate, False and Error. *)
Theorem summary_counts_partition
    (results : list json) (verified_count inaccurate_count false_count errors : nat) :
  summary_counts results = Ok (verified_count, inaccurate_count, false_count) →
  error_count results = Ok errors →
  (verified_count + inaccurate_count + false_count + errors ≤ length results)%nat ∧
  ((verified_count + inaccurate_count + false_count + errors)%nat = length results
   ↔ Forall (fun r => has_label r = true) results).
Proof.
  intros (Ha & Hb & Hc)%summary_counts_inv He.
  by apply counts_partition.
Qed.

(** Three Verdicts, with the statuses Verified, Error and False. *)
Lemma summary_counts_partition_witness :
  let results :=
    [ JDict (<[py "status" := JStr (py "Verified")]> ∅);
      JDict (<[py "status" := JStr (py "Error")]> ∅);
      JDict (<[py "status" := JStr (py "False")]> ∅) ] in
  (1 + 0 + 1 + 1 ≤ length results)%nat ∧
  ((1 + 0 + 1 + 1)%nat = length results
   ↔ Forall (fun r => has_label r = true) results).
Proof.
  intros results. apply (summary_counts_partition results 1 0 1 1).
  - vm_compute. reflexivity.
  - vm_compute. reflexivity.
Defined.

Section Properties.
Context {RT : Runtime} {SV : Services}.

(** * The two pipeline functions, outcome by outcome *)

Lemma attach_claim_eq claim s :
  attach_claim claim s =
  match json_loads s with
  | Ok (JDict d) => Ok (JDict (<[py "claim" := claim]> d))
  | Ok j => Raise (TypeError NoItemAssignment j)
  | Raise e => Raise e
  end.
Proof. unfold attach_claim. by destruct (json_loads s) as [[]|]. Qed.

Lemma verify_claim_eq claim w :
  verify_claim claim w =
  match classification_answer claim w with
  | (Ok s, w1) =>
      match attach_claim claim s with
      | Ok v => (Ok v, w1)
      | Raise e => (Ok (error_verdict claim e), w1)
      end
  | (Raise e, w1) => (Ok (error_verdict claim e), w1)
  end.
Proof.
  unfold verify_claim, try_except, mbind, io_bind, lift.
  destruct (classification_answer claim w) as [[s|e] w1]; [|done].
  by destruct (attach_claim claim s).
Qed.

Lemma extract_claims_eq text w :
  extract_claims text w =
  match extraction_answer text w with
  | (Ok s, w1) =>
      match parse_claims s with
      | Ok claims => (Ok claims, w1)
      | Raise e =>
          (Ok [], (emit (Text Error (py "Error extracting claims: " ++ exn_str e)) w1).2)
      end
  | (Raise e, w1) =>
      (Ok [], (emit (Text Error (py "Error extracting claims: " ++ exn_str e)) w1).2)
  end.
Proof.
  unfold extract_claims, try_except, mbind, io_bind, lift.
  destruct (extraction_answer text w) as [[s|e] w1]; [|done].
  by destruct (parse_claims s).
Qed.

Lemma error_verdict_fields claim e :
  py_getitem (error_verdict claim e) (py "claim") = Ok claim ∧
  py_getitem (error_verdict claim e) (py "status") = Ok (JStr (py "Error")) ∧
  py_getitem (error_verdict claim e) (py "explanation")
    = Ok (JStr (py "Could not verify: " ++ exn_str e)) ∧
  py_getitem (error_verdict claim e) (py "sources") = Ok (JList []).
Proof.
  unfold error_verdict, py_getitem.
  repeat split; by simplify_map_eq.
Qed.

Lemma attach_claim_field claim s v :
  attach_claim claim s = Ok v → py_getitem v (py "claim") = Ok claim.
Proof.
  rewrite attach_claim_eq. destruct (json_loads s) as [[]|]; try done.
  intros [= <-]. unfold py_getitem. by rewrite lookup_insert_eq.
Qed.

Lemma verify_claim_total claim w :
  ∃ v w', verify_claim claim w = (Ok v, w') ∧
          py_getitem v (py "claim") = Ok claim.
Proof.
  rewrite verify_claim_eq.
  destruct (classification_answer claim w) as [[s|e] w1].
  - destruct (attach_claim claim s) as [v|e] eqn:E.
    + eauto using attach_claim_field.
    + eexists _, _. split; [done|]. apply error_verdict_fields.
  - eexists _, _. split; [done|]. apply error_verdict_fields.
Qed.

Lemma search_raises claim w e x :
  tavily_search claim 3 (outside w) = (Raise e, x) →
  classification_answer claim w
  = (Raise e, {| outside := x; files := files w; ui := ui w |}).
Proof.
  intros Hs. unfold classification_answer, mbind, io_bind, call_service.
  by rewrite Hs.
Qed.

Lemma chat_raises text w e x :
  chat_completions_create (extraction_request text) (outside w) = (Raise e, x) →
  extraction_answer text w
  = (Raise e, {| outside := x; files := files w; ui := ui w |}).
Proof.
  intros Hs. unfold extraction_answer, mbind, io_bind, call_service.
  by rewrite Hs.
Qed.

(** * The verification loop *)

Lemma verify_each_spec total claims : ∀ i acc w,
  ∃ vs w', verify_each total i claims acc w = (Ok (acc ++ vs), w') ∧
    Forall2 (fun claim v =>
               (∃ w1 w2, verify_claim claim w1 = (Ok v, w2)) ∧
               py_getitem v (py "claim") = Ok claim) claims vs.
Proof.
  induction claims as [|claim rest IH]; intros i acc w.
  - exists [], w. by rewrite app_nil_r.
  - cbn [verify_each]. unfold mbind, io_bind, emit.
    match goal with |- context [verify_claim claim ?W] =>
      destruct (verify_claim_total claim W) as (v & w1 & Hv & Hc); rewrite Hv
    end.
    match goal with |- context [verify_each total (S i) rest ?A ?W] =>
      destruct (IH (S i) A W) as (vs & w' & Hvs & HF)
    end.
    exists (v :: vs), w'. split.
    + rewrite Hvs. by rewrite <- (assoc_L (++)).
    + constructor; [|done]. split; [eauto|done].
Qed.

(** C1.  For every sequence of claims, the verification loop of lines
    163-173 ends without an exception with exactly one Verdict per claim:
    the list of Verdicts has the length of the list of claims, the Verdict
    at index [i] has the claim at index [i] in its [claim] field, and it is
    what [verify_claim] returned for that claim. *)
Theorem verify_all_one_verdict_per_claim (claims : list json) (w : world) :
  ∃ results w',
    verify_all claims w = (Ok results, w') ∧
    length results = length claims ∧
    (∀ i claim, claims !! i = Some claim →
       ∃ v, results !! i = Some v ∧ py_getitem v (py "claim") = Ok claim) ∧
    Forall2 (fun claim v => ∃ w1 w2, verify_claim claim w1 = (Ok v, w2))
            claims results.
Proof.
  unfold verify_all, mbind, io_bind. unfold emit at 1.
  destruct (verify_each_spec (length claims) claims 0 []
              {| outside := outside w; files := files w;
                 ui := ui w ++ [Progress 0 1] |}) as (vs & w' & Hvs & HF).
  rewrite Hvs. cbn [app]. unfold emit, mret, io_ret.
  eexists _, _. split; [done|]. split; [|split].
  - symmetry. by eapply Forall2_length.
  - intros i claim Hi.
    destruct (Forall2_lookup_l _ _ _ _ _ HF Hi) as (v & Hv & _ & Hc). eauto.
  - eapply Forall2_impl; [exact HF|]. by intros ?? [? _].
Qed.

(** * verify_claim *)

Lemma evidence_context_empty d :
  d !! py "results" = None ∨ d !! py "results" = Some (JList []) →
  evidence_context (JDict d) = Ok [].
Proof. unfold evidence_context, py_get. by intros [-> | ->]. Qed.

(** C2.  [verify_claim] never raises: for every claim and every state of
    the outside world it returns a Verdict.  Whenever a step of the [try]
    block raises (the search, the construction of the context, the request
    to the text-generation service, reading and cleaning its answer,
    [json.loads], attaching the claim), the Verdict is the failure Verdict:
    its status is [Error], its explanation is [Could not verify: ] followed
    by the text of the exception, and its sources are the empty list.  In
    particular this is so when the search raises and when the answer is not
    valid JSON; a search without results is no failure (the context is
    empty and the verification goes on). *)
Theorem verify_claim_never_raises (claim : json) (w : world) :
  (∃ v w', verify_claim claim w = (Ok v, w')) ∧
  (∀ e w1, classification_answer claim w = (Raise e, w1) →
     verify_claim claim w = (Ok (error_verdict claim e), w1)) ∧
  (∀ s w1 e, classification_answer claim w = (Ok s, w1) →
     attach_claim claim s = Raise e →
     verify_claim claim w = (Ok (error_verdict claim e), w1)) ∧
  (∀ e x, tavily_search claim 3 (outside w) = (Raise e, x) →
     verify_claim claim w
     = (Ok (error_verdict claim e),
        {| outside := x; files := files w; ui := ui w |})) ∧
  (∀ s w1 e, classification_answer claim w = (Ok s, w1) →
     json_loads s = Raise e →
     verify_claim claim w = (Ok (error_verdict claim e), w1)) ∧
  (∀ d, d !! py "results" = None ∨ d !! py "results" = Some (JList []) →
     evidence_context (JDict d) = Ok []) ∧
  (∀ e,
     py_getitem (error_verdict claim e) (py "status") = Ok (JStr (py "Error")) ∧
     py_getitem (error_verdict claim e) (py "explanation")
       = Ok (JStr (py "Could not verify: " ++ exn_str e)) ∧
     py_getitem (error_verdict claim e) (py "sources") = Ok (JList [])).
Proof.
  split; [|split; [|split; [|split; [|split; [|split]]]]].
  - destruct (verify_claim_total claim w) as (v & w' & Hv & _). eauto.
  - intros e w1 Hc. by rewrite verify_claim_eq, Hc.
  - intros s w1 e Hc Ha. by rewrite verify_claim_eq, Hc, Ha.
  - intros e x Hs. by rewrite verify_claim_eq, (search_raises _ _ _ _ Hs).
  - intros s w1 e Hc Hl. by rewrite verify_claim_eq, Hc, attach_claim_eq, Hl.
  - apply evidence_context_empty.
  - intros e. destruct (error_verdict_fields claim e) as (_ & ? & ? & ?). done.
Qed.

(** C4 (amended).  Every Verdict [verify_claim] returns is either the
    failure Verdict, whose status is [Error], or the object decoded from the
    answer of the text-generation service with the claim attached; the
    status of the latter is whatever the service sent (any value, or none),
    and it is one of the four labels exactly when the service sent one of
    them. *)
Theorem verdict_status_comes_from_service (claim : json) (w : world) :
  ∃ v w', verify_claim claim w = (Ok v, w') ∧
    ((∃ e, v = error_verdict claim e ∧ has_label v = true) ∨
     (∃ s d, classification_answer claim w = (Ok s, w') ∧
             json_loads s = Ok (JDict d) ∧
             v = JDict (<[py "claim" := claim]> d) ∧
             py_getitem v (py "status") = py_getitem (JDict d) (py "status") ∧
             (has_label v = true ↔
              ∃ l, l ∈ labels ∧ d !! py "status" = Some (JStr l)))).
Proof.
  assert (Herr : ∀ e, has_label (error_verdict claim e) = true).
  { intros e. unfold has_label.
    destruct (error_verdict_fields claim e) as (_ & -> & _). done. }
  rewrite verify_claim_eq.
  destruct (classification_answer claim w) as [[s|e] w1]; [|by eauto 8].
  rewrite attach_claim_eq. destruct (json_loads s) as [j|e] eqn:Hj; [|by eauto 8].
  destruct j as [| | | | | |d]; try by eauto 8.
  eexists _, _. split; [done|]. right. exists s, d.
  assert (Hst : py_getitem (JDict (<[py "claim" := claim]> d)) (py "status")
                = py_getitem (JDict d) (py "status")).
  { unfold py_getitem. by rewrite lookup_insert_ne. }
  repeat split; try done.
  - unfold has_label. rewrite Hst. unfold py_getitem.
    destruct (d !! py "status") as [[| | | |l| |]|]; try done.
    intros Hl%bool_decide_eq_true. eauto.
  - intros (l & Hl & Hd). unfold has_label. rewrite Hst. unfold py_getitem.
    rewrite Hd. by apply bool_decide_eq_true.
Qed.

(** C5 (amended).  When the answer of the text-generation service
    decodes to a JSON object, [verify_claim] returns that object with the
    claim attached, whether or not [status], [explanation] or [sources]
    are present; when it decodes to any other JSON value, [verify_claim]
    returns the failure Verdict (status [Error], explanation
    [Could not verify: ] and the cause, no sources). *)
Theorem parsed_answer_is_returned (claim : json) (w w1 : world) (s : pystr) (j : json) :
  classification_answer claim w = (Ok s, w1) →
  json_loads s = Ok j →
  verify_claim claim w =
    (Ok (match j with
         | JDict d => JDict (<[py "claim" := claim]> d)
         | _ => error_verdict claim (TypeError NoItemAssignment j)
         end), w1).
Proof.
  intros Hc Hj. rewrite verify_claim_eq, Hc, attach_claim_eq, Hj. by destruct j.
Qed.

(** * extract_claims *)

(** C6.  [extract_claims] never propagates an exception: for every text
    and every state of the outside world it returns a list.  When the
    cleaned answer is not valid JSON, when the request raises, and more
    generally whenever the request or the clean-up of its answer raises,
    it returns the empty list, and the only thing it adds to the page is one
    error message, [Error extracting claims: ] followed by the text of the
    exception. *)
Theorem extract_claims_fails_soft (text : pystr) (w : world) :
  (∃ claims w', extract_claims text w = (Ok claims, w')) ∧
  (∀ s w1 e, extraction_answer text w = (Ok s, w1) →
     json_loads s = Raise e →
     extract_claims text w
     = (Ok [], {| outside := outside w1; files := files w1;
                  ui := ui w1 ++ [Text Error (py "Error extracting claims: "
                                              ++ exn_str e)] |})) ∧
  (∀ e x, chat_completions_create (extraction_request text) (outside w)
          = (Raise e, x) →
     extract_claims text w
     = (Ok [], {| outside := x; files := files w;
                  ui := ui w ++ [Text Error (py "Error extracting claims: "
                                             ++ exn_str e)] |})) ∧
  (∀ e w1, extraction_answer text w = (Raise e, w1) →
     extract_claims text w
     = (Ok [], {| outside := outside w1; files := files w1;
                  ui := ui w1 ++ [Text Error (py "Error extracting claims: "
                                              ++ exn_str e)] |})).
Proof.
  split; [|split; [|split]].
  - rewrite extract_claims_eq.
    destruct (extraction_answer text w) as [[s|e] w1]; [|by eauto].
    destruct (parse_claims s); by eauto.
  - intros s w1 e Ha Hl. rewrite extract_claims_eq, Ha.
    unfold parse_claims. by rewrite Hl.
  - intros e x Hc. by rewrite extract_claims_eq, (chat_raises _ _ _ _ Hc).
  - intros e w1 Ha. by rewrite extract_claims_eq, Ha.
Qed.

Lemma traverse_ok {A B} (f : A → result B) l ys :
  traverse f l = Ok ys ↔ Forall2 (fun x y => f x = Ok y) l ys.
Proof.
  revert ys. induction l as [|x l IH]; intros ys; cbn [traverse].
  - split; [intros [= <-]; constructor | by intros ->%Forall2_nil_inv_l].
  - split.
    + destruct (f x) as [y|] eqn:Hy; [|done]. cbn [mbind result_bind].
      destruct (traverse f l) as [ys'|]; [|done]. cbn [mbind result_bind].
      intros [= <-]. constructor; [done|]. by apply IH.
    + intros (y & ys' & Hy & HF & ->)%Forall2_cons_inv_l.
      rewrite Hy. cbn [mbind result_bind]. apply IH in HF. by rewrite HF.
Qed.

Lemma traverse_raises {A B} (f : A → result B) l x :
  x ∈ l → (∀ y, f x ≠ Ok y) → ∃ e, traverse f l = Raise e.
Proof.
  intros Hx Hf. induction l as [|a l IH]; [by apply elem_of_nil in Hx|].
  cbn [traverse]. destruct (f a) as [y|e] eqn:Ha; [|by eauto].
  cbn [mbind result_bind].
  apply elem_of_cons in Hx as [->|Hx]; [by destruct (Hf y)|].
  destruct (IH Hx) as [e ->]. by eauto.
Qed.

Lemma claim_object_getitem c :
  is_claim_object c = true ↔ ∃ x, py_getitem c (py "claim") = Ok x.
Proof.
  unfold is_claim_object, py_getitem. destruct c as [| | | | | |d];
    try (split; [done | by intros [? ?]]).
  rewrite bool_decide_eq_true. destruct (d !! py "claim").
  - split; eauto.
  - split; [by intros [? ?] | by intros [? ?]].
Qed.

(** C10.  If the cleaned answer decodes to a JSON array one element of
    which is not an object with a [claim] key, [extract_claims] returns the
    empty list and reports an error, whatever the other elements are. *)
Theorem extract_claims_all_or_nothing
    (text : pystr) (w w1 : world) (s : pystr) (l : list json) :
  extraction_answer text w = (Ok s, w1) →
  json_loads s = Ok (JList l) →
  (∃ c, c ∈ l ∧ is_claim_object c = false) →
  ∃ e, extract_claims text w
       = (Ok [], {| outside := outside w1; files := files w1;
                    ui := ui w1 ++ [Text Error (py "Error extracting claims: "
                                                ++ exn_str e)] |}).
Proof.
  intros Ha Hl (c & Hc & Hno).
  destruct (traverse_raises (fun c => py_getitem c (py "claim")) l c Hc)
    as [e He].
  { intros y Hy. assert (is_claim_object c = true) by (apply claim_object_getitem; eauto).
    congruence. }
  exists e. rewrite extract_claims_eq, Ha. unfold parse_claims.
  rewrite Hl. cbn [mbind result_bind py_iter]. by rewrite He.
Qed.

Lemma claim_fields_nonblank items claims :
  Forall2 (fun item claim => py_getitem item (py "claim") = Ok claim)
          items claims →
  Forall (fun claim => nonblank claim = true) claims ↔
  Forall (fun item => ∃ claim, py_getitem item (py "claim") = Ok claim ∧
                               nonblank claim = true) items.
Proof.
  induction 1 as [|item claim items claims Hic _ IH].
  - split; constructor.
  - rewrite !Forall_cons, IH. split.
    + intros [? ?]. eauto.
    + intros [(c & Hc & ?) ?]. split; [congruence|done].
Qed.

(** C8 (amended).  When [extract_claims] returns a non-empty list, the
    cleaned answer decoded to a JSON array and the list holds, in order,
    the value stored under [claim] in each element of that array, as it is:
    nothing is trimmed or filtered, so the claims returned are non-empty
    strings after trimming if and only if the [claim] values the service
    sent are. *)
Theorem extract_claims_returns_claim_fields
    (text : pystr) (w w' : world) (claims : list json) :
  extract_claims text w = (Ok claims, w') →
  claims ≠ [] →
  ∃ s items,
    extraction_answer text w = (Ok s, w') ∧
    json_loads s = Ok (JList items) ∧
    Forall2 (fun item claim => py_getitem item (py "claim") = Ok claim)
            items claims ∧
    (Forall (fun claim => nonblank claim = true) claims ↔
     Forall (fun item => ∃ claim, py_getitem item (py "claim") = Ok claim ∧
                                  nonblank claim = true) items).
Proof.
  rewrite extract_claims_eq.
  destruct (extraction_answer text w) as [[s|e] w1]; [|by intros [= <-]].
  destruct (parse_claims s) as [cs|e] eqn:Hp; [|by intros [= <-]].
  intros [= -> ->] Hne. unfold parse_claims in Hp.
  destruct (json_loads s) as [data|] eqn:Hd; [|done].
  cbn [mbind result_bind] in Hp.
  destruct (py_iter data) as [items|] eqn:Hi; [|done].
  cbn [mbind result_bind] in Hp. apply traverse_ok in Hp.
  assert (data = JList items) as ->.
  { destruct data as [| | | |t|l|d]; try done.
    - injection Hi as <-. destruct t as [|ch t]; [by inversion Hp; subst|].
      inversion Hp; subst. done.
    - by injection Hi as <-.
    - injection Hi as <-.
      destruct ((map_to_list d).*1) as [|k ks]; [by inversion Hp; subst|].
      inversion Hp; subst. done. }
  exists s, items. repeat split; try done; by apply claim_fields_nonblank.
Qed.

(** * The temporary file *)

Lemma remove_temp_removes pdf_path (w : world) :
  ∃ w', remove_temp pdf_path w = (Ok (), w') ∧
        files w' !! pdf_path = None ∧
        outside w' = outside w ∧ ui w' = ui w.
Proof.
  unfold remove_temp, mbind, io_bind, os_path_exists, os_unlink.
  destruct (files w !! pdf_path) as [data|] eqn:Hf.
  - rewrite bool_decide_eq_true_2 by eauto. rewrite Hf.
    eexists. split; [done|]. cbn. by rewrite lookup_delete_eq.
  - rewrite bool_decide_eq_false_2 by (by intros [? ?]).
    exists w. by destruct w.
Qed.

Lemma try_finally_remove_temp {A} (body : io A) pdf_path (w : world) :
  ∃ w1 w', body w = ((try_finally body (remove_temp pdf_path) w).1, w1) ∧
           try_finally body (remove_temp pdf_path) w = ((body w).1, w') ∧
           files w' !! pdf_path = None.
Proof.
  unfold try_finally. destruct (body w) as [r w1].
  destruct (remove_temp_removes pdf_path w1) as (w' & -> & Hf & _).
  by exists w1, w'.
Qed.

(** C9.  A run for an uploaded document always ends normally and without
    the temporary file: whatever the PDF loader, the two services and the
    rest of the [try] block do (return or raise), the [finally] block of
    lines 215-218 runs and the file is absent afterwards.  The same holds
    from any state of the disk, and for any body put in place of the [try]
    block. *)
Theorem temp_file_removed_on_every_path
    (data : list N) (pdf_path : pystr) (w : world) :
  (∃ w', page (Some data) pdf_path w = (Ok (), w') ∧
         files w' !! pdf_path = None) ∧
  (∀ w0, ∃ w', process_pdf pdf_path w0 = (Ok (), w') ∧
               files w' !! pdf_path = None) ∧
  (∀ (A : Type) (body : io A) (w0 : world),
     files (try_finally body (remove_temp pdf_path) w0).2 !! pdf_path = None ∧
     (try_finally body (remove_temp pdf_path) w0).1 = (body w0).1).
Proof.
  assert (Hp : ∀ w0, ∃ w', process_pdf pdf_path w0 = (Ok (), w') ∧
                           files w' !! pdf_path = None).
  { intros w0. unfold process_pdf.
    match goal with |- context [try_finally ?b _ _] =>
      destruct (try_finally_remove_temp b pdf_path w0) as (w1 & w' & _ & -> & Hf);
      exists w'; split; [|done];
      assert (Hb : (b w0).1 = Ok ()); [|by rewrite Hb]
    end.
    unfold try_except.
    match goal with |- context [match ?m w0 with _ => _ end] =>
      destruct (m w0) as [[[]|e] w2]; done
    end. }
  split; [|split; [done|]].
  - unfold page, mbind, io_bind, save_upload. apply Hp.
  - intros A body w0.
    destruct (try_finally_remove_temp body pdf_path w0) as (w1 & w' & _ & -> & Hf).
    done.
Qed.

End Properties.

(** * The scripted runs *)

(** C4: a Verdict whose status is none of the four labels. *)
Lemma verdict_with_other_status :
  ∃ v w', Double.verify Examples.claim Examples.other_label = (Ok v, w') ∧
          py_getitem v (py "status") = Ok (JStr (py "Unverifiable")) ∧
          has_label v = false.
Proof. eexists _, _. split; [vm_compute; reflexivity|]. by vm_compute. Qed.

(** C3: the counts of a run with one claim sum to 0. *)
Lemma counts_miss_other_status :
  ∃ results w',
    Double.verify_claims [Examples.claim] Examples.other_label = (Ok results, w') ∧
    length results = 1%nat ∧
    summary_counts results = Ok (0, 0, 0)%nat ∧
    error_count results = Ok 0%nat ∧
    (0 + 0 + 0 + 0)%nat ≠ length results.
Proof. eexists _, _. split; [vm_compute; reflexivity|]. by vm_compute. Qed.

(** C5: an answer without [status] and [sources] is returned as a
    Verdict, not as the failure Verdict. *)
Lemma verdict_with_fields_missing :
  ∃ v w', Double.verify Examples.claim Examples.fields_missing = (Ok v, w') ∧
          py_getitem v (py "status") = Raise (KeyError (py "status")) ∧
          py_getitem v (py "sources") = Raise (KeyError (py "sources")) ∧
          ∀ e, v ≠ @error_verdict Double.runtime Examples.claim e.
Proof.
  eexists _, _. split; [vm_compute; reflexivity|].
  split; [by vm_compute|]. split; [by vm_compute|].
  intros e Heq. apply (f_equal (fun v => py_getitem v (py "status"))) in Heq.
  destruct (@error_verdict_fields Double.runtime Examples.claim e) as (_ & Hs & _).
  rewrite Hs in Heq. vm_compute in Heq. discriminate.
Qed.

(** The same answer, through the theorem on decoded answers. *)
Lemma parsed_answer_is_returned_witness :
  ∃ w', Double.verify Examples.claim Examples.fields_missing
        = (Ok (JDict (<[py "claim" := Examples.claim]>
                      (<[py "explanation" :=
                           JStr (py "The figure matches the annual report.")]> ∅))),
           w').
Proof.
  eexists.
  eapply (@parsed_answer_is_returned Double.runtime Double.services
            Examples.claim Examples.fields_missing _ _
            (JDict (<[py "explanation" :=
                        JStr (py "The figure matches the annual report.")]> ∅))).
  - vm_compute. reflexivity.
  - vm_compute. reflexivity.
Defined.

(** C8: a blank claim is returned. *)
Lemma blank_claim_is_returned :
  ∃ w', Double.extract (py "GDP grew 3% in 2022.") Examples.blank_claim
        = (Ok [JStr (py "GDP grew 3% in 2022"); JStr (py "  ")], w') ∧
        nonblank (JStr (py "  ")) = false ∧
        strip (py "  ") = [].
Proof. eexists. split; [vm_compute; reflexivity|]. by vm_compute. Qed.

(** The same run, through the theorem on the claims returned. *)
Lemma extract_claims_returns_claim_fields_witness :
  ∃ s items,
    @extraction_answer Double.services (py "GDP grew 3% in 2022.")
      Examples.blank_claim
    = (Ok s, Double.start [] [] (Ok [])) ∧
    json_loads s = Ok (JList items) ∧
    Forall2 (fun item c => py_getitem item (py "claim") = Ok c) items
            [JStr (py "GDP grew 3% in 2022"); JStr (py "  ")] ∧
    (Forall (fun c => nonblank c = true)
            [JStr (py "GDP grew 3% in 2022"); JStr (py "  ")] ↔
     Forall (fun item => ∃ c, py_getitem item (py "claim") = Ok c ∧
                              nonblank c = true) items).
Proof.
  apply (@extract_claims_returns_claim_fields Double.runtime Double.services).
  - vm_compute. reflexivity.
  - discriminate.
Defined.

(** C10: one element without [claim] discards the well-formed one. *)
Lemma extract_claims_all_or_nothing_witness :
  ∃ e, Double.extract (py "GDP grew 3% in 2022.") Examples.one_bad_element
       = (Ok [], @Build_world Double.services
                   (outside (Double.start [] [] (Ok []))) ∅
                   [Text Error (py "Error extracting claims: "
                                ++ Double.message e)]).
Proof.
  eapply (@extract_claims_all_or_nothing Double.runtime Double.services
            (py "GDP grew 3% in 2022.") Examples.one_bad_element
            (Double.start [] [] (Ok [])) _
            [JDict (<[py "claim" := JStr (py "GDP grew 3% in 2022")]> ∅);
             JDict (<[py "text" := JStr (py "Prices rose")]> ∅)]).
  - vm_compute. reflexivity.
  - vm_compute. reflexivity.
  - exists (JDict (<[py "text" := JStr (py "Prices rose")]> ∅)).
    split; [|by vm_compute]. rewrite !elem_of_cons. auto.
Defined.

(** The search fails for the first claim only: its Verdict is the failure
    Verdict and the second claim is verified all the same. *)
Lemma search_failure_is_contained :
  ∃ v w',
    Double.verify_claims [Examples.claim; Examples.second_claim]
      Examples.search_fails_once
    = (Ok [@error_verdict Double.runtime Examples.claim
             (ServiceError (py "connection reset")); v], w') ∧
    py_getitem v (py "claim") = Ok Examples.second_claim ∧
    py_getitem v (py "status") = Ok (JStr (py "Verified")).
Proof. eexists _, _. split; [vm_compute; reflexivity|]. by vm_compute. Qed.

(** A whole run: one claim, verified; the summary shows 1, 0 and 0 and the
    temporary file is gone. *)
Lemma run_with_one_verified_claim :
  ∃ w', Double.run (Some [37; 80; 68; 70]) Examples.temp_path
          Examples.one_verified_claim = (Ok (), w') ∧
        files w' = ∅ ∧
        Metric ([9989] ++ py " Verified") 1 ∈ ui w' ∧
        Metric ([9888; 65039] ++ py " Inaccurate") 0 ∈ ui w' ∧
        Metric ([10060] ++ py " False") 0 ∈ ui w' ∧
        Text Markdown (py "**Claim:** Revenue grew 40% in 2023") ∈ ui w'.
Proof.
  eexists. split; [vm_compute; reflexivity|].
  split; [reflexivity|]. cbn [ui]. rewrite !elem_of_cons. tauto.
Qed.

(** A run without claims shows the warning and no Verdict. *)
Lemma run_without_claims :
  Double.run (Some [37; 80; 68; 70]) Examples.temp_path Examples.no_claim
  = (Ok (),
     @Build_world Double.services (outside (Double.start [] [] (Ok [py "Hello."]))) ∅
       [ Text Success (py "PDF text extracted successfully!");
         Text Subheader ([128269] ++ py " Text Preview (first 500 characters)");
         Text Write (py "Hello.");
         Text Spinner ([128269] ++ py " Extracting claims from document...");
         Text Warning (py "No verifiable claims found in the document.") ]).
Proof. vm_compute. reflexivity. Qed.

(** A run whose loader raises shows the error and removes the file. *)
Lemma run_with_unreadable_pdf :
  Double.run (Some [0; 1; 2]) Examples.temp_path Examples.not_a_pdf
  = (Ok (),
     @Build_world Double.services (outside Examples.not_a_pdf) ∅
       [ Text Error (py "Error processing PDF: not a PDF") ]).
Proof. vm_compute. reflexivity. Qed.

(** * Further properties

    ** What a statement leaves alone *)

Section Frame.
Context {RT : Runtime} {SV : Services}.

Lemma keeps_ret {X A} (part : world → X) (a : A) : keeps part (mret a : io A).
Proof. by intros w. Qed.

Lemma keeps_lift {X A} (part : world → X) (r : result A) : keeps part (lift r).
Proof. by intros w. Qed.

Lemma keeps_bind {X A B} (part : world → X) (m : io A) (k : A → io B) :
  keeps part m → (∀ a, keeps part (k a)) → keeps part (m ≫= k).
Proof.
  intros Hm Hk w. unfold mbind, io_bind. specialize (Hm w).
  destruct (m w) as [[a|e] w1]; [|done]. rewrite <- Hm. apply Hk.
Qed.

Lemma keeps_try_except {X A} (part : world → X) (m : io A) (h : exn → io A) :
  keeps part m → (∀ e, keeps part (h e)) → keeps part (try_except m h).
Proof.
  intros Hm Hh w. unfold try_except. specialize (Hm w).
  destruct (m w) as [[a|e] w1]; [done|]. rewrite <- Hm. apply Hh.
Qed.

Lemma keeps_files_emit e : keeps files (emit e).
Proof. by intros w. Qed.

Lemma keeps_files_call {A} (f : ext → result A * ext) :
  keeps files (call_service f).
Proof. intros w. unfold call_service. by destruct (f (outside w)). Qed.

Lemma keeps_ui_call {A} (f : ext → result A * ext) : keeps ui (call_service f).
Proof. intros w. unfold call_service. by destruct (f (outside w)). Qed.

Lemma keeps_classification_answer {X} (part : world → X) claim :
  (∀ A (f : ext → result A * ext), keeps part (call_service f)) →
  keeps part (classification_answer claim).
Proof.
  intros Hc. unfold classification_answer.
  repeat (apply keeps_bind; [|intros ?]); auto using keeps_lift.
Qed.

Lemma keeps_verify_claim {X} (part : world → X) claim :
  (∀ A (f : ext → result A * ext), keeps part (call_service f)) →
  keeps part (verify_claim claim).
Proof.
  intros Hc. unfold verify_claim. apply keeps_try_except.
  - apply keeps_bind; [by apply keeps_classification_answer|].
    intros ?. apply keeps_lift.
  - intros e. apply keeps_ret.
Qed.

Lemma keeps_files_extract_claims text : keeps files (extract_claims text).
Proof.
  unfold extract_claims. apply keeps_try_except.
  - apply keeps_bind; [|intros ?; apply keeps_lift].
    unfold extraction_answer.
    repeat (apply keeps_bind; [|intros ?]);
      auto using keeps_lift, @keeps_files_call.
  - intros e. apply keeps_bind; [apply keeps_files_emit|].
    intros ?. apply keeps_ret.
Qed.

Lemma keeps_files_verify_each total claims : ∀ i acc,
  keeps files (verify_each total i claims acc).
Proof.
  induction claims as [|c rest IH]; intros i acc; cbn [verify_each].
  - apply keeps_ret.
  - apply keeps_bind; [apply keeps_files_emit|]. intros _.
    apply keeps_bind; [apply keeps_verify_claim, @keeps_files_call|]. intros v.
    apply keeps_bind; [apply keeps_files_emit|]. intros _. apply IH.
Qed.

Lemma keeps_files_verify_all claims : keeps files (verify_all claims).
Proof.
  unfold verify_all.
  apply keeps_bind; [apply keeps_files_emit|]. intros _.
  apply keeps_bind; [apply keeps_files_verify_each|]. intros results.
  apply keeps_bind; [apply keeps_files_emit|]. intros _. apply keeps_ret.
Qed.

Lemma keeps_files_foldr {A} (f : A → io unit) (l : list A) :
  (∀ a, keeps files (f a)) →
  keeps files (foldr (fun a rest => f a;; rest) (mret ()) l).
Proof.
  intros Hf. induction l as [|a l IH]; cbn [foldr]; [apply keeps_ret|].
  apply keeps_bind; [apply Hf | by intros _].
Qed.

Lemma keeps_files_display_result r : keeps files (display_result r).
Proof.
  unfold display_result.
  repeat (apply keeps_bind; [first [apply keeps_lift | apply keeps_files_emit]|];
          intros ?).
  destruct (py_truthy _); [|apply keeps_ret].
  repeat (apply keeps_bind; [first [apply keeps_lift | apply keeps_files_emit]|];
          intros ?).
  apply keeps_files_foldr. intros ?. apply keeps_files_emit.
Qed.

Lemma keeps_files_report claims : keeps files (report claims).
Proof.
  unfold report. destruct claims as [|c cs]; [apply keeps_files_emit|].
  do 2 (apply keeps_bind; [apply keeps_files_emit|]; intros _).
  apply keeps_bind; [apply keeps_files_verify_all|]. intros results.
  apply keeps_bind; [apply keeps_files_emit|]. intros _.
  apply keeps_bind; [apply keeps_lift|]. intros [[a b] c'].
  repeat (apply keeps_bind; [apply keeps_files_emit|]; intros _).
  apply keeps_files_foldr. apply keeps_files_display_result.
Qed.

End Frame.


(** ** The two service calls and the loop *)

Section Calls.
Context {RT : Runtime} {SV : Services}.

(** X1.  [extract_claims] reads the first 8000 characters of the document
    and nothing else (line 39): two documents that agree on them give the
    same request, and, run in the same world, the same result and the same
    world afterwards. *)
Theorem extract_claims_reads_8000_characters (text text' : pystr) (w : world) :
  take (N.to_nat 8000) text = take (N.to_nat 8000) text' →
  extraction_request text = extraction_request text' ∧
  extract_claims text w = extract_claims text' w.
Proof.
  intros Ht.
  assert (Hr : extraction_request text = extraction_request text').
  { unfold extraction_request, extraction_prompt. by rewrite Ht. }
  split; [done|].
  rewrite !extract_claims_eq. unfold extraction_answer. by rewrite Hr.
Qed.

(** X2.  [verify_claim] shows nothing on the page and changes no file,
    whether the verification succeeds or ends in the failure verdict. *)
Theorem verify_claim_touches_neither_page_nor_disk (claim : json) (w : world) :
  ui (verify_claim claim w).2 = ui w ∧ files (verify_claim claim w).2 = files w.
Proof.
  split.
  - apply (keeps_verify_claim ui). intros A f. apply keeps_ui_call.
  - apply (keeps_verify_claim files). intros A f. apply keeps_files_call.
Qed.

Lemma keeps_ui_extraction_answer text : keeps ui (extraction_answer text).
Proof.
  unfold extraction_answer.
  repeat (apply keeps_bind; [|intros ?]); auto using keeps_lift, @keeps_ui_call.
Qed.

(** X3.  [extract_claims] changes no file, and it shows either nothing or
    exactly one error message; in the second case it returns the empty
    list. *)
Theorem extract_claims_shows_one_error_at_most (text : pystr) (w : world) :
  files (extract_claims text w).2 = files w ∧
  (ui (extract_claims text w).2 = ui w ∨
   ((extract_claims text w).1 = Ok [] ∧
    ∃ e, ui (extract_claims text w).2
         = ui w ++ [Text Error (py "Error extracting claims: " ++ exn_str e)])).
Proof.
  split; [apply keeps_files_extract_claims|].
  rewrite extract_claims_eq. pose proof (keeps_ui_extraction_answer text w) as Hu.
  destruct (extraction_answer text w) as [[s|e] w1]; cbn [snd] in Hu.
  - destruct (parse_claims s) as [cs|e]; [by left|].
    right. split; [done|]. exists e. cbn. by rewrite Hu.
  - right. split; [done|]. exists e. cbn. by rewrite Hu.
Qed.


(** X5.  When the cleaned answer decodes to an object, the verdict is this
    object with its [claim] entry set to the claim that was given (line
    119): a claim echoed by the service is overwritten, every other key is
    as the service sent it. *)
Theorem verdict_keeps_the_service_fields
    (claim : json) (w w1 : world) (s : pystr) (d : gmap pystr json) :
  classification_answer claim w = (Ok s, w1) →
  json_loads s = Ok (JDict d) →
  ∃ v, verify_claim claim w = (Ok v, w1) ∧
       py_getitem v (py "claim") = Ok claim ∧
       ∀ key, key ≠ py "claim" → py_getitem v key = py_getitem (JDict d) key.
Proof.
  intros Hc Hj. rewrite verify_claim_eq, Hc, attach_claim_eq, Hj.
  eexists. split; [done|]. unfold py_getitem. split.
  - by rewrite lookup_insert_eq.
  - intros key Hk. by rewrite lookup_insert_ne.
Qed.

(** *** The loop *)

Lemma verify_each_ui total claims : ∀ i acc w,
  ui (verify_each total i claims acc w).2
  = ui w ++ concat (loop_events total <$> seq i (length claims)).
Proof.
  induction claims as [|c rest IH]; intros i acc w.
  - cbn. by rewrite app_nil_r.
  - cbn [verify_each length seq fmap list_fmap concat].
    unfold mbind, io_bind, emit.
    match goal with |- context [verify_claim c ?W] =>
      pose proof (keeps_verify_claim ui c
                    (fun A f => @keeps_ui_call _ A f) W) as Hu;
      destruct (verify_claim_total c W) as (v & w1 & Hv & _);
      rewrite Hv in Hu |- *; cbn [snd ui] in Hu
    end.
    rewrite IH. cbn [ui]. rewrite Hu. unfold loop_events at 2.
    by rewrite <- !(assoc_L (++)).
Qed.

Lemma verify_each_ok total claims i acc w :
  ∃ r, (verify_each total i claims acc w).1 = Ok r.
Proof.
  revert i acc w. induction claims as [|c rest IH]; intros i acc w.
  - by eexists.
  - cbn [verify_each]. unfold mbind, io_bind, emit.
    match goal with |- context [verify_claim c ?W] =>
      destruct (verify_claim_total c W) as (v & w1 & Hv & _); rewrite Hv
    end.
    apply IH.
Qed.

(** X6.  The verification loop (lines 163-173) shows the progress bar at
    0, then for the claim of index [i] the status line and the progress
    [(i + 1) / n], in this order, and clears the status line at the end;
    every fraction given to the progress bar lies between 0 and 1. *)
Theorem verify_all_shows_progress (claims : list json) (w : world) :
  ui (verify_all claims w).2
  = ui w ++ [Progress 0 1]
    ++ concat (loop_events (length claims) <$> seq 0 (length claims))
    ++ [PlaceholderEmpty] ∧
  Forall progress_in_range
    ([Progress 0 1]
     ++ concat (loop_events (length claims) <$> seq 0 (length claims))
     ++ [PlaceholderEmpty]).
Proof.
  split.
  - unfold verify_all, mbind, io_bind. unfold emit at 1.
    match goal with |- context [verify_each ?n 0 claims [] ?W] =>
      pose proof (verify_each_ui n claims 0 [] W) as Hu;
      destruct (verify_each_ok n claims 0 [] W) as [r Hr];
      destruct (verify_each n 0 claims [] W) as [r' w1]
    end.
    cbn [fst snd] in Hr, Hu. subst r'. cbn. rewrite Hu. cbn [ui].
    by rewrite <- !(assoc_L (++)).
  - apply Forall_app. split; [by repeat constructor; cbn; lia|].
    apply Forall_app. split; [|by repeat constructor].
    apply Forall_concat, Forall_fmap, Forall_forall.
    intros i Hi%elem_of_seq. repeat constructor; cbn; lia.
Qed.

End Calls.


(** ** The summary and the run *)

(** *** The counts *)

Lemma count_status_app label a b :
  count_status label (a ++ b)
  = (x ← count_status label a; y ← count_status label b; Ok (x + y)%nat).
Proof.
  induction a as [|r a IH]; cbn [app count_status].
  - by destruct (count_status label b).
  - destruct (py_getitem r (py "status")) as [st|]; [|done].
    cbn [mbind result_bind]. rewrite IH.
    destruct (count_status label a) as [x|]; [|done]. cbn [mbind result_bind].
    destruct (count_status label b) as [y|]; [|done]. cbn [mbind result_bind].
    by destruct (py_eq_str st label).
Qed.

Lemma count_status_ok label results :
  (∃ n, count_status label results = Ok n) ↔
  Forall (fun r => ∃ st, py_getitem r (py "status") = Ok st) results.
Proof.
  induction results as [|r rest IH]; cbn [count_status].
  - split; [constructor | by eexists].
  - rewrite Forall_cons, <- IH.
    destruct (py_getitem r (py "status")) as [st|e]; cbn [mbind result_bind].
    + destruct (count_status label rest) as [n|e]; cbn [mbind result_bind].
      * split; [by eauto | by eexists].
      * split; [by intros [? ?] | by intros [_ [? ?]]].
    + split; [by intros [? ?] | by intros [[? ?] _]].
Qed.

Lemma count_status_raises label results e :
  count_status label results = Raise e →
  Forall (fun r => ∃ d, r = JDict d) results →
  e = KeyError (py "status").
Proof.
  induction results as [|r rest IH]; cbn [count_status]; [done|].
  intros Hc [[d ->] Hd]%Forall_cons. cbn [py_getitem] in Hc.
  destruct (d !! py "status"); cbn [mbind result_bind] in Hc; [|congruence].
  destruct (count_status label rest); cbn [mbind result_bind] in Hc; [done|].
  apply IH; [congruence|done].
Qed.

(** X7.  The three counts of lines 179-181 are computed exactly when every
    result has a [status] key; when the results are all objects, the only
    exception they can raise is [KeyError] for [status]. *)
Theorem summary_counts_need_every_status (results : list json) :
  ((∃ counts, summary_counts results = Ok counts) ↔
   Forall (fun r => ∃ st, py_getitem r (py "status") = Ok st) results) ∧
  (∀ e, summary_counts results = Raise e →
        Forall (fun r => ∃ d, r = JDict d) results →
        e = KeyError (py "status")).
Proof.
  unfold summary_counts. split.
  - split.
    + intros [c Hc].
      destruct (count_status (py "Verified") results) eqn:E; [|done].
      apply (count_status_ok (py "Verified")). eauto.
    + intros HF.
      destruct (proj2 (count_status_ok (py "Verified") results) HF) as [a ->].
      destruct (proj2 (count_status_ok (py "Inaccurate") results) HF) as [b ->].
      destruct (proj2 (count_status_ok (py "False") results) HF) as [c ->].
      by eexists.
  - intros e He Hd.
    destruct (count_status (py "Verified") results) eqn:E1;
      [|injection He as <-; by eapply count_status_raises].
    destruct (count_status (py "Inaccurate") results) eqn:E2;
      [|injection He as <-; by eapply count_status_raises].
    destruct (count_status (py "False") results) eqn:E3;
      [done|injection He as <-; by eapply count_status_raises].
Qed.

Section Run.
Context {RT : Runtime} {SV : Services}.

Lemma count_status_failure label claim e :
  label ≠ py "Error" →
  count_status label [error_verdict claim e] = Ok 0%nat.
Proof.
  intros Hl. cbn [count_status].
  destruct (error_verdict_fields claim e) as (_ & -> & _).
  cbn. by rewrite bool_decide_eq_false_2.
Qed.

Lemma count_status_skip_failure label claim e a b :
  label ≠ py "Error" →
  count_status label (a ++ error_verdict claim e :: b) = count_status label (a ++ b).
Proof.
  intros Hl. change (error_verdict claim e :: b) with ([error_verdict claim e] ++ b).
  rewrite !count_status_app, count_status_failure by done.
  destruct (count_status label a); [|done]. cbn.
  by destruct (count_status label b).
Qed.

(** X8.  A failure verdict counts in none of the three metrics: the summary
    of a list of results is the summary of the list without its failure
    verdicts. *)
Theorem failure_verdicts_are_not_counted
    (claim : json) (e : exn) (before after : list json) :
  summary_counts (before ++ error_verdict claim e :: after)
  = summary_counts (before ++ after).
Proof.
  unfold summary_counts. by rewrite !count_status_skip_failure.
Qed.

(** *** The run *)

Lemma remove_temp_eq pdf_path (w : world) :
  remove_temp pdf_path w
  = (Ok (), {| outside := outside w; files := delete pdf_path (files w);
               ui := ui w |}).
Proof.
  unfold remove_temp, mbind, io_bind, os_path_exists, os_unlink.
  destruct (files w !! pdf_path) as [data|] eqn:Hf.
  - rewrite bool_decide_eq_true_2 by eauto. by rewrite Hf.
  - rewrite bool_decide_eq_false_2 by (by intros [? ?]).
    rewrite delete_id by done. by destruct w.
Qed.

(** X9.  When the loader raises, the run shows one error message with the
    text of the exception, extracts and verifies nothing, and the
    [finally] clause removes the temporary file. *)
Theorem unreadable_pdf_ends_the_run
    (pdf_path : pystr) (w : world) (e : exn)
    (fs : gmap pystr (list N)) (x : ext) :
  pdf_load pdf_path (files w) (outside w) = (Raise e, fs, x) →
  process_pdf pdf_path w
  = (Ok (), {| outside := x; files := delete pdf_path fs;
               ui := ui w ++ [Text Error (py "Error processing PDF: "
                                          ++ exn_str e)] |}).
Proof.
  intros Hl. unfold process_pdf, try_finally, try_except.
  unfold mbind at 1, io_bind at 1, load_pages at 1. rewrite Hl.
  unfold emit. by rewrite remove_temp_eq.
Qed.

(** X10.  When the extraction request fails, the page shows the success
    message, the preview of the first 500 characters, the spinner, the
    extraction error and then the warning that no claim was found; the
    temporary file is removed. *)
Theorem failed_extraction_shows_error_then_warning
    (pdf_path : pystr) (w : world) (pages : list pystr)
    (fs : gmap pystr (list N)) (x x' : ext) (e : exn) :
  pdf_load pdf_path (files w) (outside w) = (Ok pages, fs, x) →
  chat_completions_create (extraction_request (join (py " ") pages)) x
  = (Raise e, x') →
  process_pdf pdf_path w
  = (Ok (),
     {| outside := x'; files := delete pdf_path fs;
        ui := ui w ++
          [ Text Success (py "PDF text extracted successfully!");
            Text Subheader ([128269] ++ py " Text Preview (first 500 characters)");
            Text Write (take 500 (join (py " ") pages));
            Text Spinner ([128269] ++ py " Extracting claims from document...");
            Text Error (py "Error extracting claims: " ++ exn_str e);
            Text Warning (py "No verifiable claims found in the document.") ] |}).
Proof.
  intros Hl Hc. unfold process_pdf, try_finally, try_except.
  unfold mbind at 1, io_bind at 1, load_pages at 1. rewrite Hl.
  unfold mbind at 1 2 3 4 5, io_bind at 1 2 3 4 5, emit at 1 2 3 4.
  rewrite extract_claims_eq.
  unfold extraction_answer, mbind at 1, io_bind at 1, call_service at 1.
  cbn [outside]. rewrite Hc. cbn [snd report emit].
  rewrite remove_temp_eq. cbn [outside files ui].
  by rewrite <- !(assoc_L (++)).
Qed.

(** X11.  After a run with an upload, the files are those the loader left,
    without the temporary file: the program writes the upload at the
    temporary path and, apart from the loader, touches no other file. *)
Theorem run_removes_only_the_temporary_file
    (data : list N) (pdf_path : pystr) (w : world) :
  ∃ r fs x,
    pdf_load pdf_path (<[pdf_path := data]> (files w)) (outside w) = (r, fs, x) ∧
    files (page (Some data) pdf_path w).2 = delete pdf_path fs.
Proof.
  destruct (pdf_load pdf_path (<[pdf_path := data]> (files w)) (outside w))
    as [[r fs] x] eqn:Hl.
  exists r, fs, x. split; [done|].
  unfold page, mbind at 1, io_bind at 1, save_upload.
  unfold process_pdf, try_finally.
  match goal with |- context [try_except ?b ?h ?W] =>
    assert (Hf : files (try_except b h W).2 = fs);
      [|destruct (try_except b h W) as [r1 w1]; cbn [snd] in Hf;
        rewrite remove_temp_eq; cbn; by rewrite Hf]
  end.
  unfold try_except, mbind at 1, io_bind at 1, load_pages at 1.
  cbn [files outside]. rewrite Hl. destruct r as [pages|e]; [|done].
  match goal with |- context [match ?m ?W with _ => _ end] =>
    assert (Hk : keeps files m); [|specialize (Hk W);
      destruct (m W) as [[[]|e] w2]; cbn [snd] in Hk; cbn; by rewrite Hk]
  end.
  repeat (apply keeps_bind; [apply keeps_files_emit|]; intros _).
  apply keeps_bind; [apply keeps_files_extract_claims|].
  intros claims. apply keeps_files_report.
Qed.

End Run.

(** *** The API keys *)



(** ** Text around the fences *)

(** *** More on the fence *)

Lemma rstrip_app_nonspace a c b :
  isspace c = false → rstrip (a ++ c :: b) = a ++ c :: rstrip b.
Proof.
  intros E. induction a as [|d a IH]; [by apply rstrip_cons|].
  cbn [app rstrip]. rewrite IH. by destruct a.
Qed.

Lemma lstrip_rstrip_comm s : lstrip (rstrip s) = rstrip (lstrip s).
Proof.
  induction s as [|c s IH]; [done|]. cbn [lstrip].
  destruct (isspace c) eqn:E.
  - cbn [rstrip]. rewrite E, <- IH. destruct (rstrip s); [done|].
    cbn [lstrip]. by rewrite E.
  - rewrite (rstrip_cons _ _ E). cbn [lstrip]. by rewrite E.
Qed.

Lemma strip_rstrip s : strip (rstrip s) = strip s.
Proof. unfold strip. by rewrite lstrip_rstrip_comm, rstrip_fixed. Qed.

Lemma split_go_no_backtick cur s :
  no_backtick s = true → split_go fence 0 cur s = [cur ++ s].
Proof.
  revert cur. induction s as [|c s IH]; intros cur Hs; cbn [split_go].
  - by rewrite app_nil_r.
  - cbn [no_backtick forallb] in Hs. apply andb_true_iff in Hs as [Hc Hs].
    apply negb_true_iff, N.eqb_neq in Hc.
    rewrite fence_chars. cbn [startswith].
    match goal with |- context [andb ?b _] =>
      replace b with false by (symmetry; apply N.eqb_neq; congruence)
    end.
    cbn [andb]. rewrite <- fence_chars.
    rewrite (IH _ Hs). by rewrite <- (assoc_L (++)).
Qed.

Lemma split_go_to_fence cur body rest :
  no_backtick body = true →
  head (split_go fence 0 cur (body ++ fence ++ rest)) = Some (cur ++ body).
Proof.
  revert cur. induction body as [|c body IH]; intros cur Hs.
  - rewrite fence_chars. cbn [app split_go].
    change (startswith (96 :: 96 :: 96 :: rest) [96; 96; 96]) with true.
    cbn. by rewrite app_nil_r.
  - cbn [no_backtick forallb] in Hs. apply andb_true_iff in Hs as [Hc Hs].
    apply negb_true_iff, N.eqb_neq in Hc.
    cbn [app split_go].
    rewrite fence_chars. cbn [startswith].
    match goal with |- context [andb ?b _] =>
      replace b with false by (symmetry; apply N.eqb_neq; congruence)
    end.
    cbn [andb]. rewrite <- fence_chars, (IH _ Hs).
    by rewrite <- (assoc_L (++)).
Qed.

Lemma no_backtick_rstrip s : no_backtick s = true → no_backtick (rstrip s) = true.
Proof.
  intros Hs. destruct (rstrip_prefix s) as [k Hk]. rewrite Hk in Hs.
  unfold no_backtick in *. rewrite forallb_app in Hs.
  by apply andb_true_iff in Hs as [? _].
Qed.

Lemma untag_rstrip s : untag (rstrip s) = rstrip (untag s).
Proof.
  unfold untag. destruct (startswith s json_tag) eqn:E.
  - apply startswith_spec in E as [r ->].
    change (json_tag ++ r) with ([106; 115; 111] ++ 110 :: r).
    rewrite rstrip_app_nonspace by done. done.
  - destruct (startswith (rstrip s) json_tag) eqn:E'; [|done].
    destruct (rstrip_prefix s) as [k Hk].
    apply (startswith_app _ k) in E'. rewrite <- Hk in E'. congruence.
Qed.

Lemma clean_response_fenced body trailer :
  no_backtick body = true →
  clean_response (Some (fence ++ body ++ fence ++ trailer))
  = Ok (strip (untag body)) ∧
  clean_response (Some (fence ++ body)) = Ok (strip (untag body)).
Proof.
  intros Hb. unfold clean_response. cbn [content_strip mbind result_bind].
  split.
  - assert (Hs : strip (fence ++ body ++ fence ++ trailer)
                 = fence ++ body ++ fence ++ rstrip trailer).
    { unfold strip. rewrite fence_chars. cbn [app lstrip].
      change (isspace 96) with false. cbn iota.
      change (96 :: 96 :: 96 :: body ++ 96 :: 96 :: 96 :: trailer)
        with ((96 :: 96 :: 96 :: body) ++ [96; 96] ++ 96 :: trailer).
      rewrite (assoc_L (++)), rstrip_app_nonspace by done.
      by rewrite <- (assoc_L (++)). }
    rewrite Hs. unfold strip_fences.
    replace (startswith (fence ++ body ++ fence ++ rstrip trailer) fence)
      with true by (symmetry; apply startswith_spec; eauto).
    rewrite (list_getitem_lookup _ _ body).
    + cbn [mbind result_bind]. unfold untag.
      by destruct (startswith body json_tag).
    + rewrite split_fenced by (apply startswith_spec; eauto).
      rewrite fence_chars at 2. cbn [app drop]. rewrite drop_0.
      by rewrite split_go_to_fence.
  - assert (Hs : strip (fence ++ body) = fence ++ rstrip body).
    { unfold strip. rewrite fence_chars. cbn [app lstrip].
      change (isspace 96) with false. cbn iota.
      change (96 :: 96 :: 96 :: body) with ([96; 96] ++ 96 :: body).
      by rewrite rstrip_app_nonspace. }
    rewrite Hs. unfold strip_fences.
    replace (startswith (fence ++ rstrip body) fence)
      with true by (symmetry; apply startswith_spec; eauto).
    rewrite (list_getitem_lookup _ _ (rstrip body)).
    + cbn [mbind result_bind].
      rewrite <- (strip_rstrip (untag body)), <- untag_rstrip. unfold untag.
      by destruct (startswith (rstrip body) json_tag).
    + rewrite split_fenced by (apply startswith_spec; eauto).
      rewrite fence_chars at 2. cbn [app drop]. rewrite drop_0.
      rewrite split_go_no_backtick by (by apply no_backtick_rstrip). done.
Qed.



(** ** Answers that cannot be used *)

Section Failures.
Context {RT : Runtime} {SV : Services}.

(** X14.  A classification answer without any choice, or whose content is
    [None], ends in the failure verdict: [IndexError] in the first case,
    [AttributeError] for [strip] in the second. *)
Theorem answer_without_content_is_a_failure
    (claim search_results : json) (context : pystr) (w : world) (x x' : ext)
    (response : chat_completion) :
  tavily_search claim 3 (outside w) = (Ok search_results, x) →
  evidence_context search_results = Ok context →
  chat_completions_create (classification_request claim context) x
  = (Ok response, x') →
  head (choices response) = None ∨
  head (choices response) = Some {| message_content := None |} →
  verify_claim claim w
  = (Ok (error_verdict claim
           (match choices response with
            | [] => IndexError
            | _ => AttributeError (py "strip")
            end)),
     {| outside := x'; files := files w; ui := ui w |}).
Proof.
  intros Hs He Hc Hr. rewrite verify_claim_eq.
  unfold classification_answer, mbind at 1, io_bind at 1, call_service at 1.
  rewrite Hs. unfold mbind at 1, io_bind at 1, lift at 1. rewrite He.
  unfold mbind at 1, io_bind at 1, call_service at 1. cbn [outside].
  rewrite Hc. unfold mbind at 1, io_bind at 1, lift at 1, response_content.
  destruct (choices response) as [|[[s|]] rest]; cbn in Hr |- *;
    destruct Hr as [Hr|Hr]; try discriminate; done.
Qed.

(** X15.  A blank answer to the extraction request is a decoding error:
    [extract_claims] shows the error and returns the empty list. *)
Theorem blank_answer_is_an_extraction_error
    (text s : pystr) (w : world) (x : ext) (response : chat_completion) :
  chat_completions_create (extraction_request text) (outside w)
  = (Ok response, x) →
  head (choices response) = Some {| message_content := Some s |} →
  strip s = [] →
  extract_claims text w
  = (Ok [],
     {| outside := x; files := files w;
        ui := ui w ++ [Text Error (py "Error extracting claims: "
                                   ++ exn_str (JSONDecodeError []))] |}).
Proof.
  intros Hc Hr Hs. rewrite extract_claims_eq.
  unfold extraction_answer, mbind at 1, io_bind at 1, call_service at 1.
  rewrite Hc. unfold mbind at 1, io_bind at 1, lift at 1, response_content.
  destruct (choices response) as [|c rest]; [done|]. injection Hr as ->.
  cbn [list_getitem lookup list_lookup mbind result_bind message_content lift].
  rewrite clean_response_plain by (by rewrite Hs). rewrite Hs. done.
Qed.




End Failures.


(** ** The decoder reads a value from its own text only

    What [scan_once] returns depends on the characters it consumes and on
    the fact that the next one cannot continue a number; the fuel only has
    to cover the length of the consumed text. *)

Lemma match_number_stages s :
  match_number s =
  (let '(sign, s1) := num_sign s in
   '(ip, r1) ← num_int s1;
   let '(frac, r2) := num_frac r1 in
   let '(ex, r3) := num_exp r2 in
   Some (num_value sign ip frac ex, r3)).
Proof.
  unfold match_number, num_sign, num_int, num_frac, num_exp, num_value.
  repeat (case_match; simplify_eq/=; try done).
Qed.


(** *** Digits *)

Lemma span_digits_inv s ds r :
  span_digits s = (ds, r) →
  s = ds ++ r ∧ forallb is_digit ds = true ∧ next_ok is_digit r = true.
Proof.
  revert ds r. induction s as [|c s IH]; intros ds r; cbn [span_digits].
  - by intros [= <- <-].
  - destruct (is_digit c) eqn:E.
    + destruct (span_digits s) as [ds' r']. intros [= <- <-].
      destruct (IH _ _ eq_refl) as (-> & ? & ?). cbn. by rewrite E.
    + intros [= <- <-]. cbn. by rewrite E.
Qed.

Lemma span_digits_app ds x :
  forallb is_digit ds = true → next_ok is_digit x = true →
  span_digits (ds ++ x) = (ds, x).
Proof.
  intros Hd Hx. induction ds as [|d ds IH]; cbn [app].
  - destruct x as [|c x]; [done|]. cbn in *.
    apply negb_true_iff in Hx. by rewrite Hx.
  - cbn in Hd. apply andb_true_iff in Hd as [Hd Hds].
    cbn [span_digits]. by rewrite Hd, (IH Hds).
Qed.

Lemma next_ok_app bad (a b : pystr) :
  next_ok bad (a ++ b) = match a with [] => next_ok bad b | c :: _ => negb (bad c) end.
Proof. by destruct a. Qed.

(** *** The stages of a number *)

Lemma num_sign_inv s sign s1 :
  num_sign s = (sign, s1) →
  s = sign ++ s1 ∧
  ((sign = [] ∧ next_ok is_minus s1 = true) ∨ sign = [45]).
Proof.
  unfold num_sign. destruct s as [|c r]; [by intros [= <- <-]; auto|].
  destruct (c =? 45) eqn:E; intros [= <- <-].
  - apply N.eqb_eq in E as ->. auto.
  - split; [done|]. left. split; [done|]. cbn. unfold is_minus. by rewrite E.
Qed.

Lemma num_sign_local sign x :
  (sign = [] ∧ next_ok is_minus x = true) ∨ sign = [45] →
  num_sign (sign ++ x) = (sign, x).
Proof.
  intros [[-> Hx]| ->]; [|done]. destruct x as [|c x]; [done|].
  cbn in *. unfold is_minus in Hx. apply negb_true_iff in Hx. by rewrite Hx.
Qed.

Lemma num_int_inv s1 ip r1 :
  num_int s1 = Some (ip, r1) →
  s1 = ip ++ r1 ∧
  (∃ c ds, ip = c :: ds ∧ is_digit c = true ∧ forallb is_digit (c :: ds) = true) ∧
  (∀ x, next_ok is_digit x = true → num_int (ip ++ x) = Some (ip, x)).
Proof.
  unfold num_int. destruct s1 as [|c r]; [done|].
  destruct ((49 <=? c) && (c <=? 57)) eqn:E.
  - destruct (span_digits r) as [ds r'] eqn:Hd. intros [= <- <-].
    destruct (span_digits_inv _ _ _ Hd) as (-> & Hds & Hr).
    assert (Hc : is_digit c = true) by (unfold is_digit; bool_lia).
    split; [done|]. split.
    + exists c, ds. cbn. by rewrite Hc.
    + intros x Hx. cbn [app]. rewrite E. by rewrite span_digits_app.
  - destruct (c =? 48) eqn:E0; [|done]. intros [= <- <-].
    apply N.eqb_eq in E0 as ->. split; [done|]. split; [by exists 48, []|].
    by intros x _.
Qed.

Lemma num_frac_none x : next_ok is_dot x = true → num_frac x = ([], x).
Proof.
  unfold num_frac. destruct x as [|c [|d x]]; try done.
  cbn. unfold is_dot. intros ->%negb_true_iff. done.
Qed.

Lemma num_frac_inv r1 frac r2 :
  num_frac r1 = (frac, r2) →
  r1 = frac ++ r2 ∧
  (frac = [] ∨
   (∃ ds, frac = 46 :: ds ∧ forallb is_digit ds = true ∧ ds ≠ [] ∧
          ∀ x, next_ok is_digit x = true → num_frac (frac ++ x) = (frac, x))).
Proof.
  unfold num_frac. destruct r1 as [|dot [|d r]]; try (intros [= <- <-]; auto).
  destruct ((dot =? 46) && is_digit d) eqn:E; [|intros [= <- <-]; auto].
  destruct (span_digits r) as [ds r'] eqn:Hd. intros [= <- <-].
  destruct (span_digits_inv _ _ _ Hd) as (-> & Hds & Hr).
  apply andb_true_iff in E as [->%N.eqb_eq Hdig].
  split; [done|]. right. exists (d :: ds). split; [done|].
  split; [by cbn; rewrite Hdig|]. split; [done|].
  intros x Hx. cbn [app]. change (46 =? 46) with true. rewrite Hdig. cbn [andb].
  by rewrite span_digits_app.
Qed.

Lemma num_exp_none x : next_ok is_exp_mark x = true → num_exp x = ([], x).
Proof.
  unfold num_exp. destruct x as [|c x]; [done|].
  cbn. unfold is_exp_mark. intros ->%negb_true_iff. done.
Qed.

Lemma num_exp_inv r2 ex r3 :
  num_exp r2 = (ex, r3) →
  r2 = ex ++ r3 ∧
  (ex = [] ∨
   (∃ e body d, ex = e :: body ++ [d] ∧ is_exp_mark e = true ∧ is_digit d = true ∧
      ∀ x, next_ok is_digit x = true → num_exp (ex ++ x) = (ex, x))).
Proof.
  unfold num_exp. destruct r2 as [|e r]; [by intros [= <- <-]; auto|].
  destruct ((e =? 101) || (e =? 69)) eqn:E; [|intros [= <- <-]; auto].
  set (sgr := match r with
              | [] => ([], r)
              | c :: t => if (c =? 45) || (c =? 43) then ([c], t) else ([], r)
              end).
  assert (Hsg : r = sgr.1 ++ sgr.2 ∧
                ∀ y, y ≠ [] → forallb is_digit y = true → ∀ x,
                  match sgr.1 ++ y ++ x with
                  | [] => ([], sgr.1 ++ y ++ x)
                  | c :: t => if (c =? 45) || (c =? 43) then ([c], t)
                              else ([], sgr.1 ++ y ++ x)
                  end = (sgr.1, y ++ x)).
  { subst sgr. destruct r as [|c t]; [split; [done|]; intros [|d y] ? Hy x; [done|] |].
    - cbn in Hy. apply andb_true_iff in Hy as [Hd _]. cbn.
      assert (Hno : (d =? 45) || (d =? 43) = false); [|by rewrite Hno].
      unfold is_digit in Hd. apply orb_false_iff. split; bool_lia.
    - destruct ((c =? 45) || (c =? 43)) eqn:Ec; cbn.
      + split; [done|]. intros y _ _ x. by rewrite Ec.
      + split; [done|]. intros [|d y] ? Hy x; [done|].
        cbn in Hy. apply andb_true_iff in Hy as [Hd _]. cbn.
        assert (Hno : (d =? 45) || (d =? 43) = false); [|by rewrite Hno].
        unfold is_digit in Hd. apply orb_false_iff. split; bool_lia. }
  destruct sgr as [sg r']. cbn [fst snd] in Hsg. destruct Hsg as [-> Hloc].
  destruct (span_digits r') as [ds r''] eqn:Hd.
  destruct (span_digits_inv _ _ _ Hd) as (-> & Hds & Hr).
  destruct ds as [|d0 ds]; intros [= <- <-]; [auto|].
  split; [cbn [app]; f_equal; by rewrite <- (assoc_L (++))|]. right.
  destruct (exists_last (l:=d0 :: ds)) as (body & d & Hbd); [done|].
  exists e, (sg ++ body), d. split; [by rewrite Hbd, (assoc_L (++))|].
  split; [done|]. split.
  { rewrite Hbd, forallb_app in Hds. apply andb_true_iff in Hds as [_ Hl].
    cbn in Hl. by apply andb_true_iff in Hl as [? _]. }
  intros x Hx. cbn [app]. rewrite E.
  rewrite <- (assoc_L (++)). rewrite (Hloc (d0 :: ds)) by done.
  by rewrite span_digits_app.
Qed.


Lemma delimited_next r :
  delimited r = true →
  next_ok is_digit r = true ∧ next_ok is_dot r = true ∧
  next_ok is_exp_mark r = true ∧ next_ok is_minus r = true.
Proof.
  destruct r as [|c r]; [done|]. cbn. intros Hc.
  assert (c = 32 ∨ c = 9 ∨ c = 10 ∨ c = 13 ∨ c = 44 ∨ c = 93 ∨ c = 125) as Hcs.
  { unfold is_json_ws in Hc. bool_lia. }
  unfold is_digit, is_dot, is_exp_mark, is_minus.
  repeat split; (destruct Hcs as [->|[->|[->|[->|[->|[->| ->]]]]]]; reflexivity).
Qed.

Lemma ends_digit_app a l : ends_digit l → ends_digit (a ++ l).
Proof. intros (b & d & -> & Hd). exists (a ++ b), d. by rewrite (assoc_L (++)). Qed.

Lemma ends_digit_all l :
  l ≠ [] → forallb is_digit l = true → ends_digit l.
Proof.
  intros Hl Hd. destruct (exists_last Hl) as (b & d & ->). exists b, d.
  split; [done|]. rewrite forallb_app in Hd.
  apply andb_true_iff in Hd as [_ Hd]. cbn in Hd.
  by apply andb_true_iff in Hd as [? _].
Qed.

Lemma digit_is_start c : is_digit c = true → value_start c = true.
Proof. intros Hc. unfold value_start. rewrite Hc. by rewrite !orb_true_r. Qed.

(** A number, the text it is read from, and what may replace the text
    after it. *)
Lemma match_number_inv s v r :
  match_number s = Some (v, r) → delimited r = true →
  ∃ u, s = u ++ r ∧ number_start u = true ∧ ends_digit u ∧
       ∀ r', delimited r' = true → match_number (u ++ r') = Some (v, r').
Proof.
  rewrite match_number_stages.
  destruct (num_sign s) as [sign s1] eqn:Hsign.
  destruct (num_int s1) as [[ip r1]|] eqn:Hint; [|done]. cbn [mbind option_bind].
  destruct (num_frac r1) as [frac r2] eqn:Hfrac.
  destruct (num_exp r2) as [ex r3] eqn:Hexp.
  intros [= <- <-] Hr.
  destruct (num_sign_inv _ _ _ Hsign) as (-> & Hsg).
  destruct (num_int_inv _ _ _ Hint) as (-> & (c & ds & -> & Hc & Hip) & Hiloc).
  destruct (num_frac_inv _ _ _ Hfrac) as (-> & Hf).
  destruct (num_exp_inv _ _ _ Hexp) as (-> & He).
  exists (sign ++ (c :: ds) ++ frac ++ ex).
  split; [by rewrite <- !(assoc_L (++))|].
  split; [|split].
  - destruct Hsg as [[-> _]| ->]; cbn; rewrite Hc; by rewrite ?orb_true_r.
  - apply ends_digit_app.
    destruct He as [->|(e & body & d & -> & _ & Hd & _)].
    + rewrite app_nil_r. destruct Hf as [->|(fd & -> & Hfd & Hne & _)].
      * rewrite app_nil_r. by apply ends_digit_all.
      * apply ends_digit_app. change (46 :: fd) with ([46] ++ fd).
        apply ends_digit_app. by apply ends_digit_all.
    + do 2 apply ends_digit_app. exists (e :: body), d. done.
  - intros r' Hr'. destruct (delimited_next _ Hr') as (Hd' & Hdot' & Hexp' & Hm').
    rewrite match_number_stages.
    assert (Hex : num_exp (ex ++ r') = (ex, r') ∧
                  next_ok is_digit (ex ++ r') = true ∧
                  next_ok is_dot (ex ++ r') = true).
    { destruct He as [->|(e & body & d & -> & Hm & _ & Hloc)].
      - cbn [app]. by rewrite num_exp_none.
      - split; [by apply Hloc|]. cbn. unfold is_exp_mark in Hm.
        apply orb_true_iff in Hm as [->%N.eqb_eq| ->%N.eqb_eq]; done. }
    destruct Hex as (Hex & Hexd & Hexdot).
    assert (Hfr : num_frac (frac ++ ex ++ r') = (frac, ex ++ r') ∧
                  next_ok is_digit (frac ++ ex ++ r') = true).
    { destruct Hf as [->|(fd & -> & _ & _ & Hloc)].
      - cbn [app]. by rewrite num_frac_none.
      - split; [by apply Hloc|]. done. }
    destruct Hfr as (Hfr & Hfrd).
    rewrite <- !(assoc_L (++)).
    rewrite num_sign_local.
    2:{ destruct Hsg as [[-> _]| ->]; [left|by right]. split; [done|].
        cbn. unfold is_minus. unfold is_digit in Hc. bool_lia. }
    rewrite (Hiloc _ Hfrd). cbn [mbind option_bind].
    by rewrite Hfr, Hex.
Qed.

Lemma scan_once_number m s :
  number_start s = true → scan_once (S m) s = match_number s.
Proof.
  destruct s as [|c rest]; [done|]. cbn [number_start]. intros Hs.
  assert (Hc : is_digit c = true ∨ (c = 45 ∧ ∃ d rest', rest = d :: rest' ∧ is_digit d = true)).
  { apply orb_true_iff in Hs as [?|Hs]; [by left|right].
    apply andb_true_iff in Hs as [->%N.eqb_eq Hs].
    destruct rest as [|d rest']; [done|]. eauto. }
  cbn [scan_once].
  destruct Hc as [Hc|(-> & d & rest' & -> & Hd)].
  - unfold is_digit in Hc.
    assert (Hne : ∀ k, (k <? 48) || (57 <? k) = true → (c =? k) = false).
    { intros k Hk. bool_lia. }
    rewrite !Hne by done.
    change (py "null") with (110 :: py "ull"). change (py "true") with (116 :: py "rue").
    change (py "false") with (102 :: py "alse"). change (py "NaN") with (78 :: py "aN").
    change (py "Infinity") with (73 :: py "nfinity").
    change (py "-Infinity") with (45 :: py "Infinity").
    cbn [startswith]. rewrite !(N.eqb_sym _ c), !Hne by done. done.
  - change (45 =? 34) with false. change (45 =? 123) with false.
    change (45 =? 91) with false. cbn iota.
    change (startswith (45 :: d :: rest') (py "null")) with false.
    change (startswith (45 :: d :: rest') (py "true")) with false.
    change (startswith (45 :: d :: rest') (py "false")) with false.
    change (startswith (45 :: d :: rest') (py "NaN")) with false.
    change (startswith (45 :: d :: rest') (py "Infinity")) with false.
    cbn iota.
    replace (startswith (45 :: d :: rest') (py "-Infinity")) with false; [done|].
    symmetry.
    change (startswith (45 :: d :: rest') (py "-Infinity"))
      with ((73 =? d) && startswith rest' (py "nfinity")).
    apply andb_false_iff. left. unfold is_digit in Hd. bool_lia.
Qed.


(** *** Strings *)

Lemma lookahead_match {A} (rr : pystr) (f : pystr → A) (b : A) :
  match rr with
  | 92 :: 117 :: r' => f r'
  | _ => b
  end = if startswith rr [92; 117] then f (drop 2 rr) else b.
Proof.
  destruct rr as [|a [|c t]]; [done| |].
  - cbn [startswith]. rewrite andb_false_r.
    destruct a as [|p]; [done|].
    do 7 (destruct p as [p|p|]; try reflexivity).
  - cbn [startswith drop]. rewrite andb_true_r.
    destruct (92 =? a) eqn:Ea.
    + apply N.eqb_eq in Ea as <-. cbn [andb].
      destruct (117 =? c) eqn:Ec.
      * by apply N.eqb_eq in Ec as <-.
      * destruct c as [|p]; [done|].
        do 7 (destruct p as [p|p|]; try reflexivity); by cbn in Ec.
    + cbn [andb]. destruct a as [|p]; [done|].
      do 7 (destruct p as [p|p|]; try reflexivity); by cbn in Ea.
Qed.

Lemma scanstring_unfold n c s' acc :
  scanstring (S n) (c :: s') acc =
  if c =? 34 then Some (acc, s')
  else if c =? 92 then
    match s' with
    | [] => None
    | e :: s'' =>
        if e =? 117 then
          '(u, r) ← hex4 s'';
          if is_high u then
            if startswith r [92; 117] then
              '(u2, r'') ← hex4 (drop 2 r);
              if is_low u2
              then scanstring n r'' (acc ++ [65536 + (u - 55296) * 1024 + (u2 - 56320)])
              else scanstring n r (acc ++ [u])
            else scanstring n r (acc ++ [u])
          else scanstring n r (acc ++ [u])
        else x ← simple_escape e; scanstring n s'' (acc ++ [x])
    end
  else if c <? 32 then None
  else scanstring n s' (acc ++ [c]).
Proof.
  cbn [scanstring]. destruct (c =? 34); [done|]. destruct (c =? 92); [|done].
  destruct s' as [|e s'']; [done|]. destruct (e =? 117); [|done].
  destruct (hex4 s'') as [[u r]|]; [|done]. cbn [mbind option_bind].
  unfold is_high, is_low. destruct ((55296 <=? u) && (u <=? 56319)); [|done].
  rewrite (lookahead_match r
    (fun r' => '(u2, r'') ← hex4 r';
       if (56320 <=? u2) && (u2 <=? 57343)
       then scanstring n r'' (acc ++ [65536 + (u - 55296) * 1024 + (u2 - 56320)])
       else scanstring n r (acc ++ [u]))
    (scanstring n r (acc ++ [u]))).
  done.
Qed.

Lemma hex_digit_no_quote c x : hex_digit c = Some x → c ≠ 34.
Proof. by intros Hc ->. Qed.

Lemma hex4_inv t n rest :
  hex4 t = Some (n, rest) →
  ∃ a b c d, t = a :: b :: c :: d :: rest ∧
    Forall (fun k => k ≠ 34) [a; b; c; d] ∧
    ∀ rest', hex4 (a :: b :: c :: d :: rest') = Some (n, rest').
Proof.
  unfold hex4. destruct t as [|a [|b [|c [|d t]]]]; try done.
  destruct (hex_digit a) as [x1|] eqn:Ha; [|done].
  destruct (hex_digit b) as [x2|] eqn:Hb; [|done].
  destruct (hex_digit c) as [x3|] eqn:Hc; [|done].
  destruct (hex_digit d) as [x4|] eqn:Hd; [|done].
  cbn. intros [= <- <-]. exists a, b, c, d. split; [done|].
  split; [repeat constructor; by eapply hex_digit_no_quote|].
  intros rest'. by rewrite Ha, Hb, Hc, Hd.
Qed.

Lemma prefix_before_quote (l q u0 r : pystr) :
  l ++ q = u0 ++ 34 :: r → Forall (fun k => k ≠ 34) l → ∃ u0', u0 = l ++ u0'.
Proof.
  revert u0. induction l as [|a l IH]; intros u0 Heq Hl; [by exists u0|].
  apply Forall_cons in Hl as [Ha Hl]. destruct u0 as [|b u0].
  - by injection Heq as ->.
  - injection Heq as -> Heq. destruct (IH _ Heq Hl) as [u0' ->]. by exists u0'.
Qed.

Lemma lookahead_stable (u0 r r' : pystr) :
  startswith (u0 ++ 34 :: r) [92; 117] = false →
  startswith (u0 ++ 34 :: r') [92; 117] = false.
Proof.
  destruct u0 as [|a [|b u0]]; cbn [app startswith]; done.
Qed.

Lemma scanstring_inv f : ∀ s acc x r,
  scanstring f s acc = Some (x, r) →
  ∃ u, s = u ++ 34 :: r ∧
       ∀ f' r', (length u < f')%nat →
                scanstring f' (u ++ 34 :: r') acc = Some (x, r').
Proof.
  induction f as [|n IH]; intros s acc x r; [done|].
  destruct s as [|c s']; [done|]. rewrite scanstring_unfold.
  destruct (c =? 34) eqn:Eq.
  { intros [= <- <-]. apply N.eqb_eq in Eq as ->. exists []. split; [done|].
    intros [|f'] r' Hf; [cbn in Hf; lia|]. cbn [app]. by rewrite scanstring_unfold. }
  destruct (c =? 92) eqn:Eb.
  - apply N.eqb_eq in Eb as ->. destruct s' as [|e s'']; [done|].
    destruct (e =? 117) eqn:Eu.
    + apply N.eqb_eq in Eu as ->.
      destruct (hex4 s'') as [[uc rr]|] eqn:Hh; [|done]. cbn [mbind option_bind].
      destruct (hex4_inv _ _ _ Hh) as (a & b & c & d & -> & Hq & Hloc).
      destruct (is_high uc) eqn:Ehigh.
      * destruct (startswith rr [92; 117]) eqn:Est.
        -- apply startswith_spec in Est as [rr2 ->]. cbn [app drop]. rewrite drop_0.
           destruct (hex4 rr2) as [[u2 r3]|] eqn:Hh2; [|done].
           cbn [mbind option_bind].
           destruct (hex4_inv _ _ _ Hh2) as (a2 & b2 & c2 & d2 & -> & Hq2 & Hloc2).
           destruct (is_low u2) eqn:Elow.
           ++ intros (u0 & -> & Hl0)%IH.
              exists (92 :: 117 :: a :: b :: c :: d
                      :: 92 :: 117 :: a2 :: b2 :: c2 :: d2 :: u0).
              split; [done|]. intros [|f'] r' Hf; [cbn in Hf; lia|].
              cbn [app]. rewrite scanstring_unfold.
              change (92 =? 34) with false. change (92 =? 92) with true.
              change (117 =? 117) with true. cbn iota.
              rewrite Hloc. cbn [mbind option_bind]. rewrite Ehigh.
              change (startswith (92 :: 117 :: a2 :: b2 :: c2 :: d2 :: u0 ++ 34 :: r')
                        [92; 117]) with true.
              cbn iota. cbn [drop]. rewrite ?drop_0, Hloc2. cbn [mbind option_bind].
              rewrite Elow. apply Hl0. cbn in Hf. lia.
           ++ intros (u0 & Hu0 & Hl0)%IH.
              destruct (prefix_before_quote
                          [92; 117; a2; b2; c2; d2] r3 u0 r) as [u0' ->].
              { exact Hu0. }
              { repeat (apply Forall_cons in Hq2 as [? Hq2]).
                by repeat constructor. }
              cbn [app] in Hu0. simplify_eq.
              exists (92 :: 117 :: a :: b :: c :: d
                      :: 92 :: 117 :: a2 :: b2 :: c2 :: d2 :: u0').
              split; [done|]. intros [|f'] r' Hf; [cbn in Hf; lia|].
              cbn [app]. rewrite scanstring_unfold.
              change (92 =? 34) with false. change (92 =? 92) with true.
              change (117 =? 117) with true. cbn iota.
              rewrite Hloc. cbn [mbind option_bind]. rewrite Ehigh.
              change (startswith (92 :: 117 :: a2 :: b2 :: c2 :: d2 :: u0' ++ 34 :: r')
                        [92; 117]) with true.
              cbn iota. cbn [drop]. rewrite ?drop_0, Hloc2. cbn [mbind option_bind].
              rewrite Elow. apply (Hl0 f' r'). cbn in Hf |- *. lia.
        -- intros (u0 & -> & Hl0)%IH.
           exists (92 :: 117 :: a :: b :: c :: d :: u0).
           split; [done|]. intros [|f'] r' Hf; [cbn in Hf; lia|].
           cbn [app]. rewrite scanstring_unfold.
           change (92 =? 34) with false. change (92 =? 92) with true.
           change (117 =? 117) with true. cbn iota.
           rewrite Hloc. cbn [mbind option_bind]. rewrite Ehigh.
           rewrite (lookahead_stable _ _ _ Est). apply Hl0. cbn in Hf. lia.
      * intros (u0 & -> & Hl0)%IH.
        exists (92 :: 117 :: a :: b :: c :: d :: u0).
        split; [done|]. intros [|f'] r' Hf; [cbn in Hf; lia|].
        cbn [app]. rewrite scanstring_unfold.
        change (92 =? 34) with false. change (92 =? 92) with true.
        change (117 =? 117) with true. cbn iota.
        rewrite Hloc. cbn [mbind option_bind]. rewrite Ehigh.
        apply Hl0. cbn in Hf. lia.
    + destruct (simple_escape e) as [xe|] eqn:Hes; [|done]. cbn [mbind option_bind].
      intros (u0 & -> & Hl0)%IH. exists (92 :: e :: u0).
      split; [done|]. intros [|f'] r' Hf; [cbn in Hf; lia|].
      cbn [app]. rewrite scanstring_unfold.
      change (92 =? 34) with false. change (92 =? 92) with true. cbn iota.
      rewrite Eu, Hes. cbn [mbind option_bind]. apply Hl0. cbn in Hf. lia.
  - destruct (c <? 32) eqn:Ec; [done|].
    intros (u0 & -> & Hl0)%IH. exists (c :: u0).
    split; [done|]. intros [|f'] r' Hf; [cbn in Hf; lia|].
    cbn [app]. rewrite scanstring_unfold, Eq, Eb, Ec. apply Hl0. cbn in Hf. lia.
Qed.


(** *** Whitespace *)

Lemma skip_ws_inv s :
  ∃ w, s = w ++ skip_ws s ∧ forallb is_json_ws w = true.
Proof.
  induction s as [|c s (w & Hw & Hall)]; [by exists []|]. cbn [skip_ws].
  destruct (is_json_ws c) eqn:E.
  - exists (c :: w). cbn. rewrite E, Hall. split; [by rewrite Hw at 1|done].
  - by exists [].
Qed.

Lemma skip_ws_head s c t : skip_ws s = c :: t → is_json_ws c = false.
Proof.
  induction s as [|a s IH]; [done|]. cbn [skip_ws].
  destruct (is_json_ws a) eqn:E; [done|]. by intros [= <- <-].
Qed.

Lemma skip_ws_to w c x :
  forallb is_json_ws w = true → is_json_ws c = false →
  skip_ws (w ++ c :: x) = c :: x.
Proof.
  intros Hw Hc. induction w as [|a w IH]; cbn [app skip_ws].
  - by rewrite Hc.
  - cbn in Hw. apply andb_true_iff in Hw as [-> Hw]. by apply IH.
Qed.

Lemma skip_ws_cut s c t :
  skip_ws s = c :: t →
  ∃ w, s = w ++ c :: t ∧ forallb is_json_ws w = true ∧ is_json_ws c = false.
Proof.
  intros Hs. destruct (skip_ws_inv s) as (w & Hw & Hall). exists w.
  rewrite Hs in Hw. eauto using skip_ws_head.
Qed.

Lemma skip_ws_all w : forallb is_json_ws w = true → skip_ws w = [].
Proof.
  induction w as [|a w IH]; [done|]. cbn. intros [-> Hw]%andb_true_iff. by apply IH.
Qed.

Lemma delimited_after_ws w c x :
  forallb is_json_ws w = true →
  (c =? 44) || (c =? 93) || (c =? 125) = true →
  delimited (w ++ c :: x) = true.
Proof.
  intros Hw Hc. destruct w as [|a w]; cbn in *.
  - by destruct (is_json_ws c).
  - apply andb_true_iff in Hw as [-> _]. done.
Qed.

Lemma value_start_not_ws c : value_start c = true → is_json_ws c = false.
Proof. unfold value_start, is_digit, is_json_ws. intros Hc. bool_lia. Qed.

Lemma value_text_head u x :
  value_text u → ∃ c u', u ++ x = c :: u' ++ x ∧ is_json_ws c = false.
Proof.
  intros (c & u' & -> & Hc & _). exists c, u'. split; [done|].
  by apply value_start_not_ws.
Qed.

Lemma value_text_length u : value_text u → (1 ≤ length u)%nat.
Proof. intros (c & u' & -> & _). cbn. lia. Qed.

Lemma value_text_intro c body d :
  value_start c = true → value_end d = true → value_text (c :: body ++ [d]).
Proof.
  intros Hc Hd. exists c, (body ++ [d]). split; [done|]. split; [done|].
  by exists (c :: body), d.
Qed.

Lemma number_is_value_text u :
  number_start u = true → ends_digit u → value_text u.
Proof.
  intros Hs (b & d & -> & Hd). destruct b as [|c b].
  - cbn in Hs. rewrite andb_false_r, orb_false_r in Hs.
    exists d, []. split; [done|]. split; [by apply digit_is_start|].
    exists [], d. split; [done|]. unfold value_end. rewrite Hd.
    by rewrite ?orb_true_r.
  - exists c, (b ++ [d]). split; [done|]. split.
    + cbn in Hs. unfold value_start. apply orb_true_iff in Hs as [->|Hs];
        [by rewrite ?orb_true_r|].
      apply andb_true_iff in Hs as [Hm _]. unfold is_minus in Hm. rewrite Hm.
      by rewrite ?orb_true_r.
    + exists (c :: b), d. split; [done|]. unfold value_end. rewrite Hd.
      by rewrite ?orb_true_r.
Qed.

Lemma number_start_app u x : number_start u = true → number_start (u ++ x) = true.
Proof.
  destruct u as [|c [|d u]]; cbn; try done.
  by rewrite andb_false_r, orb_false_r; intros ->.
Qed.

(** *** The three functions of the scanner *)

Lemma scan_once_unfold n c r :
  scan_once (S n) (c :: r) =
  if c =? 34 then
    '(str, r') ← scanstring (S (length r)) r []; Some (JStr str, r')
  else if c =? 123 then
    match skip_ws r with
    | c' :: r' =>
        if c' =? 125 then Some (JDict ∅, r')
        else parse_members n (c' :: r') ∅
    | [] => None
    end
  else if c =? 91 then
    match skip_ws r with
    | c' :: r' =>
        if c' =? 93 then Some (JList [], r')
        else parse_elements n (c' :: r') []
    | [] => None
    end
  else if startswith (c :: r) (py "null") then Some (JNull, drop 4 (c :: r))
  else if startswith (c :: r) (py "true") then Some (JBool true, drop 4 (c :: r))
  else if startswith (c :: r) (py "false") then Some (JBool false, drop 5 (c :: r))
  else if startswith (c :: r) (py "NaN") then Some (JFloat (py "NaN"), drop 3 (c :: r))
  else if startswith (c :: r) (py "Infinity")
  then Some (JFloat (py "Infinity"), drop 8 (c :: r))
  else if startswith (c :: r) (py "-Infinity")
  then Some (JFloat (py "-Infinity"), drop 9 (c :: r))
  else match_number (c :: r).
Proof. reflexivity. Qed.

Lemma parse_elements_unfold n s acc :
  parse_elements (S n) s acc =
  ('(v, r) ← scan_once n s;
   match skip_ws r with
   | c :: r' =>
       if c =? 93 then Some (JList (acc ++ [v]), r')
       else if c =? 44 then parse_elements n (skip_ws r') (acc ++ [v])
       else None
   | [] => None
   end).
Proof. reflexivity. Qed.

Lemma parse_members_unfold n s acc :
  parse_members (S n) s acc =
  match s with
  | q :: r =>
      if q =? 34 then
        '(key, r1) ← scanstring (S (length r)) r [];
        match skip_ws r1 with
        | colon :: r2 =>
            if colon =? 58 then
              '(v, r3) ← scan_once n (skip_ws r2);
              match skip_ws r3 with
              | c :: r4 =>
                  if c =? 125 then Some (JDict (<[key := v]> acc), r4)
                  else if c =? 44
                  then parse_members n (skip_ws r4) (<[key := v]> acc)
                  else None
              | [] => None
              end
            else None
        | [] => None
        end
      else None
  | [] => None
  end.
Proof. reflexivity. Qed.


Lemma skip_ws_stable r2 u2 k r w2 r' :
  skip_ws r2 = u2 ++ k :: r → is_json_ws k = false →
  forallb is_json_ws w2 = true →
  skip_ws (w2 ++ u2 ++ k :: r') = u2 ++ k :: r'.
Proof.
  intros Hs Hk Hw. destruct u2 as [|c u2]; cbn [app] in *.
  - by apply skip_ws_to.
  - apply skip_ws_to; [done|]. by eapply skip_ws_head.
Qed.

Lemma literal_local (lit : pystr) (k : nat) (v : json) c body d s :
  lit = c :: body ++ [d] → value_start c = true → value_end d = true →
  k = length lit →
  (∀ m x, scan_once (S m) (lit ++ x) = Some (v, x)) →
  startswith s lit = true →
  ∃ u, s = u ++ drop k s ∧ value_text u ∧
       ∀ m r', (2 * length u ≤ m + 1)%nat → delimited r' = true →
               scan_once m (u ++ r') = Some (v, r').
Proof.
  intros Hlit Hc Hd -> Hscan [x ->]%startswith_spec. exists lit.
  rewrite drop_app_length. split; [done|]. split.
  - rewrite Hlit. by apply value_text_intro.
  - intros [|m] r' Hm _; [rewrite Hlit in Hm; cbn in Hm; lia|]. apply Hscan.
Qed.

Lemma scan_local_step n :
  scan_local n → elements_local n → members_local n → scan_local (S n).
Proof.
  intros IHs IHe IHm s v r. destruct s as [|c r0]; [done|].
  rewrite scan_once_unfold. destruct (c =? 34) eqn:E34.
  { apply N.eqb_eq in E34 as ->.
    destruct (scanstring (S (length r0)) r0 []) as [[str r1]|] eqn:Hs; [|done].
    cbn [mbind option_bind]. intros [= <- <-] _.
    destruct (scanstring_inv _ _ _ _ _ Hs) as (u0 & -> & Hloc).
    exists (34 :: u0 ++ [34]). split; [lists|].
    split; [by apply value_text_intro|].
    intros [|m] r' Hm _; [cbn in Hm; lia|].
    norm. rewrite scan_once_unfold.
    change (34 =? 34) with true. cbn iota. rewrite (Hloc _ r') by len. done. }
  destruct (c =? 123) eqn:E123.
  { apply N.eqb_eq in E123 as ->.
    destruct (skip_ws r0) as [|c' r''] eqn:Hsk; [done|].
    destruct (skip_ws_cut _ _ _ Hsk) as (w & -> & Hw & Hc').
    destruct (c' =? 125) eqn:E125.
    - apply N.eqb_eq in E125 as ->. intros [= <- <-] _.
      exists (123 :: w ++ [125]). split; [lists|].
      split; [by apply value_text_intro|].
      intros [|m] r' Hm _; [cbn in Hm; lia|].
      norm. rewrite scan_once_unfold.
      change (123 =? 34) with false. change (123 =? 123) with true. cbn iota.
      by rewrite skip_ws_to.
    - intros (u2 & Hu2 & Hloc)%IHm _.
      destruct u2 as [|c2 u2]; cbn [app] in Hu2;
        [injection Hu2 as Hc2 Hr2; rewrite Hc2, N.eqb_refl in E125; discriminate|].
      injection Hu2 as -> ->.
      exists (123 :: w ++ (c2 :: u2) ++ [125]).
      split; [lists|].
      split; [rewrite (assoc_L (++)); by apply value_text_intro|].
      intros [|m] r' Hm _; [cbn in Hm; lia|].
      norm. rewrite scan_once_unfold.
      change (123 =? 34) with false. change (123 =? 123) with true. cbn iota.
      rewrite skip_ws_to by done. rewrite E125.
      apply (Hloc m r'). cbn [length] in *. len. }
  destruct (c =? 91) eqn:E91.
  { apply N.eqb_eq in E91 as ->.
    destruct (skip_ws r0) as [|c' r''] eqn:Hsk; [done|].
    destruct (skip_ws_cut _ _ _ Hsk) as (w & -> & Hw & Hc').
    destruct (c' =? 93) eqn:E93.
    - apply N.eqb_eq in E93 as ->. intros [= <- <-] _.
      exists (91 :: w ++ [93]). split; [lists|].
      split; [by apply value_text_intro|].
      intros [|m] r' Hm _; [cbn in Hm; lia|].
      norm. rewrite scan_once_unfold.
      change (91 =? 34) with false. change (91 =? 123) with false.
      change (91 =? 91) with true. cbn iota.
      by rewrite skip_ws_to.
    - intros (u2 & Hu2 & Hloc)%IHe _.
      destruct u2 as [|c2 u2]; cbn [app] in Hu2;
        [injection Hu2 as Hc2 Hr2; rewrite Hc2, N.eqb_refl in E93; discriminate|].
      injection Hu2 as -> ->.
      exists (91 :: w ++ (c2 :: u2) ++ [93]).
      split; [lists|].
      split; [rewrite (assoc_L (++)); by apply value_text_intro|].
      intros [|m] r' Hm _; [cbn in Hm; lia|].
      norm. rewrite scan_once_unfold.
      change (91 =? 34) with false. change (91 =? 123) with false.
      change (91 =? 91) with true. cbn iota.
      rewrite skip_ws_to by done. rewrite E93.
      apply (Hloc m r'). cbn [length] in *. len. }
  destruct (startswith (c :: r0) (py "null")) eqn:H1.
  { intros [= <- <-] _.
    by apply (literal_local (py "null") 4 JNull 110 (py "ul") 108). }
  destruct (startswith (c :: r0) (py "true")) eqn:H2.
  { intros [= <- <-] _.
    by apply (literal_local (py "true") 4 (JBool true) 116 (py "ru") 101). }
  destruct (startswith (c :: r0) (py "false")) eqn:H3.
  { intros [= <- <-] _.
    by apply (literal_local (py "false") 5 (JBool false) 102 (py "als") 101). }
  destruct (startswith (c :: r0) (py "NaN")) eqn:H4.
  { intros [= <- <-] _.
    by apply (literal_local (py "NaN") 3 (JFloat (py "NaN")) 78 (py "a") 78). }
  destruct (startswith (c :: r0) (py "Infinity")) eqn:H5.
  { intros [= <- <-] _.
    by apply (literal_local (py "Infinity") 8 (JFloat (py "Infinity"))
                73 (py "nfinit") 121). }
  destruct (startswith (c :: r0) (py "-Infinity")) eqn:H6.
  { intros [= <- <-] _.
    by apply (literal_local (py "-Infinity") 9 (JFloat (py "-Infinity"))
                45 (py "Infinit") 121). }
  intros Hn Hr.
  destruct (match_number_inv _ _ _ Hn Hr) as (u & Hu & Hns & Hed & Hloc).
  exists u. split; [done|]. split; [by apply number_is_value_text|].
  intros [|m] r' Hm Hr'.
  - pose proof (value_text_length u (number_is_value_text _ Hns Hed)). lia.
  - rewrite scan_once_number by (by apply number_start_app). by apply Hloc.
Qed.

Lemma elements_local_step n :
  scan_local n → elements_local n → elements_local (S n).
Proof.
  intros IHs IHe s acc v r. rewrite parse_elements_unfold.
  destruct (scan_once n s) as [[v1 r1]|] eqn:Hs; [|done]. cbn [mbind option_bind].
  destruct (skip_ws r1) as [|c r2] eqn:Hsk; [done|].
  destruct (skip_ws_cut _ _ _ Hsk) as (w & -> & Hw & Hc).
  destruct (c =? 93) eqn:E93.
  - apply N.eqb_eq in E93 as ->. intros [= <- <-].
    destruct (IHs _ _ _ Hs) as (u1 & -> & Hvt & Hloc);
      [by apply delimited_after_ws|].
    exists (u1 ++ w). split; [lists|].
    intros [|m] r' Hm; [lia|]. rewrite parse_elements_unfold. norm.
    rewrite (Hloc m (w ++ 93 :: r')); [|len|by apply delimited_after_ws].
    cbn [mbind option_bind]. by rewrite skip_ws_to.
  - destruct (c =? 44) eqn:E44; [|done]. apply N.eqb_eq in E44 as ->.
    intros (u2 & Hu2 & Hloc2)%IHe.
    destruct (IHs _ _ _ Hs) as (u1 & -> & Hvt & Hloc);
      [by apply delimited_after_ws|].
    destruct (skip_ws_inv r2) as (w2 & Hr2 & Hw2). rewrite Hu2 in Hr2.
    exists (u1 ++ w ++ 44 :: w2 ++ u2). split; [rewrite Hr2; lists|].
    intros [|m] r' Hm; [lia|]. rewrite parse_elements_unfold. norm.
    rewrite (Hloc m (w ++ 44 :: w2 ++ u2 ++ 93 :: r'));
      [|len|by apply delimited_after_ws].
    cbn [mbind option_bind]. rewrite skip_ws_to by done.
    change (44 =? 93) with false. change (44 =? 44) with true. cbn iota.
    rewrite (skip_ws_stable r2 u2 93 r) by done.
    apply Hloc2. pose proof (value_text_length _ Hvt). len.
Qed.

Lemma members_local_step n :
  scan_local n → members_local n → members_local (S n).
Proof.
  intros IHs IHm s acc v r. rewrite parse_members_unfold.
  destruct s as [|q r0]; [done|]. destruct (q =? 34) eqn:Eq; [|done].
  apply N.eqb_eq in Eq as ->.
  destruct (scanstring (S (length r0)) r0 []) as [[key r1]|] eqn:Hk; [|done].
  cbn [mbind option_bind].
  destruct (scanstring_inv _ _ _ _ _ Hk) as (uk & -> & Hlock).
  destruct (skip_ws r1) as [|colon r2] eqn:Hsk1; [done|].
  destruct (skip_ws_cut _ _ _ Hsk1) as (w1 & -> & Hw1 & Hcolon).
  destruct (colon =? 58) eqn:E58; [|done]. apply N.eqb_eq in E58 as ->.
  destruct (scan_once n (skip_ws r2)) as [[v1 r3]|] eqn:Hs; [|done].
  cbn [mbind option_bind].
  destruct (skip_ws r3) as [|c r4] eqn:Hsk3; [done|].
  destruct (skip_ws_cut _ _ _ Hsk3) as (w3 & -> & Hw3 & Hc).
  destruct (skip_ws_inv r2) as (w2 & Hr2 & Hw2).
  assert (Hkey : ∀ m x,
    parse_members (S m) (34 :: uk ++ 34 :: w1 ++ 58 :: w2 ++ x) acc
    = ('(v, r3) ← scan_once m (skip_ws (w2 ++ x));
       match skip_ws r3 with
       | c :: r4 =>
           if c =? 125 then Some (JDict (<[key := v]> acc), r4)
           else if c =? 44
                then parse_members m (skip_ws r4) (<[key := v]> acc)
                else None
       | [] => None
       end)).
  { intros m x. rewrite parse_members_unfold. change (34 =? 34) with true.
    cbn iota. rewrite (Hlock _ (w1 ++ 58 :: w2 ++ x)) by len.
    cbn [mbind option_bind]. rewrite skip_ws_to by done.
    by change (58 =? 58) with true. }
  destruct (c =? 125) eqn:E125.
  - apply N.eqb_eq in E125 as ->. intros [= <- <-].
    destruct (IHs _ _ _ Hs) as (u1 & Hu1 & Hvt & Hloc);
      [by apply delimited_after_ws|].
    rewrite Hu1 in Hr2.
    exists (34 :: uk ++ 34 :: w1 ++ 58 :: w2 ++ u1 ++ w3).
    split; [rewrite Hr2; lists|].
    intros [|m] r' Hm; [lia|]. norm. rewrite Hkey.
    destruct (value_text_head u1 (w3 ++ 125 :: r') Hvt) as (c1 & u1' & Heq & Hc1).
    rewrite Heq, skip_ws_to, <- Heq by done.
    rewrite (Hloc m (w3 ++ 125 :: r')); [|len|by apply delimited_after_ws].
    cbn [mbind option_bind]. by rewrite skip_ws_to.
  - destruct (c =? 44) eqn:E44; [|done]. apply N.eqb_eq in E44 as ->.
    intros (u2 & Hu2 & Hloc2)%IHm.
    destruct (IHs _ _ _ Hs) as (u1 & Hu1 & Hvt & Hloc);
      [by apply delimited_after_ws|].
    rewrite Hu1 in Hr2.
    destruct (skip_ws_inv r4) as (w4 & Hr4 & Hw4). rewrite Hu2 in Hr4.
    exists (34 :: uk ++ 34 :: w1 ++ 58 :: w2 ++ u1 ++ w3 ++ 44 :: w4 ++ u2).
    split; [rewrite Hr2, Hr4; lists|].
    intros [|m] r' Hm; [lia|]. norm. rewrite Hkey.
    destruct (value_text_head u1 (w3 ++ 44 :: w4 ++ u2 ++ 125 :: r') Hvt)
      as (c1 & u1' & Heq & Hc1).
    rewrite Heq, skip_ws_to, <- Heq by done.
    rewrite (Hloc m (w3 ++ 44 :: w4 ++ u2 ++ 125 :: r'));
      [|len|by apply delimited_after_ws].
    cbn [mbind option_bind]. rewrite skip_ws_to by done.
    change (44 =? 125) with false. change (44 =? 44) with true. cbn iota.
    rewrite (skip_ws_stable r4 u2 125 r) by done.
    apply Hloc2. len.
Qed.

Lemma scanner_local n : scan_local n ∧ elements_local n ∧ members_local n.
Proof.
  induction n as [|n (IHs & IHe & IHm)].
  - repeat split; by intros ?.
  - split; [by apply scan_local_step|].
    split; [by apply elements_local_step | by apply members_local_step].
Qed.


(** *** The decoder and the text around a value *)

Lemma json_ws_is_space c : is_json_ws c = true → isspace c = true.
Proof.
  unfold is_json_ws. intros Hc.
  assert (c = 32 ∨ c = 9 ∨ c = 10 ∨ c = 13) as [->|[->|[->| ->]]] by bool_lia;
    reflexivity.
Qed.

Lemma value_start_not_space c : value_start c = true → isspace c = false.
Proof.
  unfold value_start, is_digit. intros Hc. apply not_true_is_false.
  unfold isspace. intros Hs. bool_lia.
Qed.

Lemma value_end_not_space c : value_end c = true → isspace c = false.
Proof.
  unfold value_end, is_digit. intros Hc. apply not_true_is_false.
  unfold isspace. intros Hs. bool_lia.
Qed.

Lemma value_start_not_bom c : value_start c = true → c ≠ 65279 ∧ c ≠ 96.
Proof. unfold value_start, is_digit. intros Hc. split; bool_lia. Qed.

Lemma delimited_ws r : forallb is_json_ws r = true → delimited r = true.
Proof. destruct r as [|c r]; [done|]. cbn. by intros [-> _]%andb_true_iff. Qed.

Lemma skip_ws_nil_inv r : skip_ws r = [] → forallb is_json_ws r = true.
Proof.
  intros Hr. destruct (skip_ws_inv r) as (w & Hw & Hall).
  rewrite Hr, app_nil_r in Hw. by subst.
Qed.

Lemma lstrip_ws w x :
  forallb is_json_ws w = true → lstrip (w ++ x) = lstrip x.
Proof.
  induction w as [|a w IH]; [done|]. cbn. intros [Ha Hw]%andb_true_iff.
  rewrite (json_ws_is_space _ Ha). by apply IH.
Qed.

Lemma rstrip_ws r : forallb is_json_ws r = true → rstrip r = [].
Proof.
  induction r as [|a r IH]; [done|]. cbn. intros [Ha Hr]%andb_true_iff.
  by rewrite (IH Hr), (json_ws_is_space _ Ha).
Qed.

Lemma strip_value_text w u r :
  forallb is_json_ws w = true → forallb is_json_ws r = true → value_text u →
  strip (w ++ u ++ r) = u.
Proof.
  intros Hw Hr (c & u' & -> & Hc & u'' & d & Hu & Hd).
  unfold strip. rewrite lstrip_ws by done. cbn [app lstrip].
  rewrite (value_start_not_space _ Hc).
  change (c :: u' ++ r) with ((c :: u') ++ r). rewrite Hu, <- (assoc_L (++)).
  cbn [app]. rewrite rstrip_app_nonspace by (by apply value_end_not_space).
  by rewrite rstrip_ws.
Qed.

Lemma no_bom w u r :
  forallb is_json_ws w = true → value_text u →
  startswith (w ++ u ++ r) [65279] = false.
Proof.
  intros Hw (c & u' & -> & Hc & _). destruct w as [|a w]; cbn [app startswith].
  - destruct (value_start_not_bom _ Hc) as [Hb _].
    rewrite andb_true_r. apply N.eqb_neq. congruence.
  - cbn [forallb] in Hw. apply andb_true_iff in Hw as [Ha _].
    rewrite andb_true_r. unfold is_json_ws in Ha. bool_lia.
Qed.

(** Where a decoded value stands in its text. *)
Lemma json_loads_text n s v r :
  scan_once n (skip_ws s) = Some (v, r) → skip_ws r = [] →
  ∃ w u, s = w ++ u ++ r ∧ forallb is_json_ws w = true ∧
         forallb is_json_ws r = true ∧ value_text u ∧
         ∀ w' r', forallb is_json_ws w' = true → forallb is_json_ws r' = true →
                  json_loads (w' ++ u ++ r') = Ok v.
Proof.
  intros Hs Hr. apply skip_ws_nil_inv in Hr.
  destruct (scanner_local n) as (Hloc & _).
  destruct (Hloc _ _ _ Hs (delimited_ws _ Hr)) as (u & Hu & Hvt & Hl).
  destruct (skip_ws_inv s) as (w & Hw & Hall). rewrite Hu in Hw.
  exists w, u. repeat split; try done.
  intros w' r' Hw' Hr'. unfold json_loads. rewrite no_bom by done.
  destruct (value_text_head u r' Hvt) as (c & u' & Heq & Hc).
  rewrite Heq, skip_ws_to, <- Heq by done.
  rewrite (Hl _ r'); [|len|by apply delimited_ws].
  by rewrite skip_ws_all.
Qed.

Lemma json_loads_inv s v :
  json_loads s = Ok v →
  ∃ r, scan_once (2 * length s + 2) (skip_ws s) = Some (v, r) ∧ skip_ws r = [].
Proof.
  unfold json_loads. destruct (startswith s [65279]); [done|].
  destruct (scan_once _ _) as [[v' r]|]; [|done].
  destruct (skip_ws r) eqn:Hr; [|done]. intros [= ->]. eauto.
Qed.

Lemma json_loads_strip s v : json_loads s = Ok v → json_loads (strip s) = Ok v.
Proof.
  intros (r & Hs & Hr)%json_loads_inv.
  destruct (json_loads_text _ _ _ _ Hs Hr) as (w & u & -> & Hw & Hr' & Hvt & Hl).
  rewrite strip_value_text by done.
  specialize (Hl [] [] eq_refl eq_refl). by rewrite app_nil_r in Hl.
Qed.

Lemma json_loads_not_fenced s v :
  json_loads s = Ok v → startswith (strip s) fence = false.
Proof.
  intros (r & Hs & Hr)%json_loads_inv.
  destruct (json_loads_text _ _ _ _ Hs Hr) as (w & u & -> & Hw & Hr' & Hvt & _).
  rewrite strip_value_text by done. destruct Hvt as (c & u' & -> & Hc & _).
  destruct (value_start_not_bom _ Hc) as [_ Hf]. rewrite fence_chars.
  cbn [startswith]. apply andb_false_iff. left. apply N.eqb_neq. congruence.
Qed.

(** The fuel of [json_loads] is enough for every value the scanner can
    read with any fuel. *)
Lemma json_loads_fuel n s v r :
  startswith s [65279] = false →
  scan_once n (skip_ws s) = Some (v, r) →
  skip_ws r = [] →
  json_loads s = Ok v.
Proof.
  intros Hb Hs Hr.
  destruct (json_loads_text _ _ _ _ Hs Hr) as (w & u & -> & Hw & Hr' & Hvt & Hl).
  by apply Hl.
Qed.

(** X17.  The trimming of lines 59 and 116 does not change what
    [json.loads] returns: a text that decodes to a value decodes to the
    same value once trimmed, and with any blanks, tabs and line ends put
    around it. *)
Theorem whitespace_around_a_value_is_ignored (s : pystr) (v : json) :
  json_loads s = Ok v →
  json_loads (strip s) = Ok v ∧
  ∀ w r, forallb is_json_ws w = true → forallb is_json_ws r = true →
         json_loads (w ++ strip s ++ r) = Ok v.
Proof.
  intros Hv. split; [by apply json_loads_strip|].
  apply json_loads_inv in Hv as (r0 & Hs & Hr).
  destruct (json_loads_text _ _ _ _ Hs Hr) as (w0 & u & -> & Hw & Hr' & Hvt & Hl).
  rewrite strip_value_text by done. exact Hl.
Qed.


Lemma strip_ws_around w x r :
  forallb is_json_ws w = true → forallb is_json_ws r = true →
  strip (w ++ x ++ r) = strip x.
Proof.
  intros Hw Hr. unfold strip. rewrite lstrip_ws by done.
  rewrite <- !lstrip_rstrip_comm. f_equal.
  induction x as [|a x IH]; cbn [app].
  - by rewrite rstrip_ws.
  - cbn [rstrip]. by rewrite IH.
Qed.

Lemma no_backtick_app a b :
  no_backtick (a ++ b) = no_backtick a && no_backtick b.
Proof. apply forallb_app. Qed.

Lemma clean_response_bare p v :
  json_loads p = Ok v → clean_response (Some p) = Ok (strip p).
Proof.
  intros Hp. unfold clean_response. cbn [content_strip mbind result_bind].
  rewrite strip_fences_plain by (by eapply json_loads_not_fenced).
  cbn [mbind result_bind]. by rewrite strip_fixed.
Qed.

Lemma clean_response_fenced_json p trailer :
  no_backtick p = true →
  clean_response (Some (fence ++ json_tag ++ nl ++ p ++ nl ++ fence ++ trailer))
  = Ok (strip p) ∧
  clean_response (Some (fence ++ nl ++ p ++ nl ++ fence ++ trailer))
  = Ok (strip p).
Proof.
  intros Hp. split.
  - pose proof (clean_response_fenced (json_tag ++ nl ++ p ++ nl) trailer) as [H _].
    { rewrite !no_backtick_app, Hp. reflexivity. }
    rewrite <- !(assoc_L (++)) in H. rewrite H. f_equal.
    change (untag (json_tag ++ nl ++ p ++ nl)) with (nl ++ p ++ nl).
    by apply strip_ws_around.
  - pose proof (clean_response_fenced (nl ++ p ++ nl) trailer) as [H _].
    { rewrite !no_backtick_app, Hp. reflexivity. }
    rewrite <- !(assoc_L (++)) in H. rewrite H. f_equal.
    change (untag (nl ++ p ++ nl)) with (nl ++ p ++ nl).
    by apply strip_ws_around.
Qed.

(** X18.  The clean-up of lines 53-59 (110-116) loses nothing of a valid
    answer: if a text decodes to a value, the cleaned text decodes to the
    same value, and so does the cleaned form of this text put between
    fences on lines of their own, with or without the [json] tag and
    whatever follows the closing fence, provided the text holds no
    backtick. *)
Theorem cleaning_keeps_the_decoded_value (p : pystr) (v : json) :
  json_loads p = Ok v →
  (clean_response (Some p) ≫= json_loads) = Ok v ∧
  (no_backtick p = true → ∀ trailer,
     (clean_response (Some (fence ++ json_tag ++ nl ++ p ++ nl ++ fence ++ trailer))
        ≫= json_loads) = Ok v ∧
     (clean_response (Some (fence ++ nl ++ p ++ nl ++ fence ++ trailer))
        ≫= json_loads) = Ok v).
Proof.
  intros Hp. split.
  - rewrite (clean_response_bare _ _ Hp). cbn [mbind result_bind].
    by apply json_loads_strip.
  - intros Hb trailer.
    destruct (clean_response_fenced_json p trailer Hb) as [-> ->].
    cbn [mbind result_bind]. split; by apply json_loads_strip.
Qed.

Section Extraction.
Context {RT : Runtime} {SV : Services}.


End Extraction.


(** ** Closed instances *)

Lemma extract_claims_reads_8000_characters_witness :
  @extraction_request (Cases.long_text (py "x"))
  = @extraction_request (Cases.long_text (py "yz")) ∧
  Double.extract (Cases.long_text (py "x")) Examples.no_claim
  = Double.extract (Cases.long_text (py "yz")) Examples.no_claim.
Proof.
  apply (@extract_claims_reads_8000_characters Double.runtime Double.services).
  vm_compute. reflexivity.
Defined.


Lemma verdict_keeps_the_service_fields_witness :
  ∃ v, Double.verify Examples.claim Cases.other_claim_echoed
       = (Ok v, Double.start [] [] (Ok [])) ∧
       py_getitem v (py "claim") = Ok Examples.claim ∧
       ∀ key, key ≠ py "claim" →
              py_getitem v key
              = py_getitem
                  (JDict (<[py "claim" := JStr (py "Revenue fell")]>
                         (<[py "status" := JStr (py "Verified")]>
                         (<[py "explanation" := JStr (py "Confirmed.")]>
                         (<[py "sources" := JList []]> ∅))))) key.
Proof.
  eapply (@verdict_keeps_the_service_fields Double.runtime Double.services).
  - vm_compute. reflexivity.
  - vm_compute. reflexivity.
Defined.

Lemma unreadable_pdf_ends_the_run_witness :
  @process_pdf Double.runtime Double.services Examples.temp_path Examples.not_a_pdf
  = (Ok (),
     @Build_world Double.services (outside Examples.not_a_pdf)
       (delete Examples.temp_path ∅)
       (ui Examples.not_a_pdf
        ++ [Text Error (py "Error processing PDF: "
                        ++ Double.message (ServiceError (py "not a PDF")))])).
Proof.
  apply (@unreadable_pdf_ends_the_run Double.runtime Double.services).
  vm_compute. reflexivity.
Defined.

Lemma failed_extraction_shows_error_then_warning_witness :
  ∃ w', @process_pdf Double.runtime Double.services Examples.temp_path
          Cases.rate_limited = (Ok (), w') ∧
        ui w' =
          [ Text Success (py "PDF text extracted successfully!");
            Text Subheader ([128269] ++ py " Text Preview (first 500 characters)");
            Text Write (py "Revenue grew 40% in 2023. Thank you.");
            Text Spinner ([128269] ++ py " Extracting claims from document...");
            Text Error (py "Error extracting claims: rate limit reached");
            Text Warning (py "No verifiable claims found in the document.") ].
Proof.
  eexists. split.
  - eapply (@failed_extraction_shows_error_then_warning
              Double.runtime Double.services Examples.temp_path
              Cases.rate_limited
              [py "Revenue grew 40% in 2023."; py "Thank you."]).
    + vm_compute. reflexivity.
    + vm_compute. reflexivity.
  - vm_compute. reflexivity.
Defined.


Lemma answer_without_content_is_a_failure_witness :
  Double.verify Examples.claim Cases.no_choice
  = (Ok (@error_verdict Double.runtime Examples.claim IndexError),
     Double.start [] [] (Ok [])).
Proof.
  apply (@answer_without_content_is_a_failure Double.runtime Double.services
           Examples.claim (JDict (<[py "results" := JList []]> ∅)) []
           Cases.no_choice
           (outside (Double.start [Ok {| choices := [] |}] [] (Ok [])))
           (outside (Double.start [] [] (Ok [])))
           {| choices := [] |}).
  - vm_compute. reflexivity.
  - vm_compute. reflexivity.
  - vm_compute. reflexivity.
  - left. reflexivity.
Defined.

Lemma blank_answer_is_an_extraction_error_witness :
  Double.extract (py "Hello.") Cases.blank_answer
  = (Ok [],
     @Build_world Double.services (outside (Double.start [] [] (Ok []))) ∅
       [Text Error (py "Error extracting claims: "
                    ++ Double.message (JSONDecodeError []))]).
Proof.
  eapply (@blank_answer_is_an_extraction_error Double.runtime Double.services
            (py "Hello.") ([32; 10] ++ [9]) Cases.blank_answer).
  - vm_compute. reflexivity.
  - vm_compute. reflexivity.
  - vm_compute. reflexivity.
Defined.


Lemma whitespace_around_a_value_is_ignored_witness :
  json_loads (strip (nl ++ Cases.claims_text ++ nl))
  = Ok (JList [JDict (<[py "claim" := JStr (py "x")]> ∅)]) ∧
  ∀ w r, forallb is_json_ws w = true → forallb is_json_ws r = true →
         json_loads (w ++ strip (nl ++ Cases.claims_text ++ nl) ++ r)
         = Ok (JList [JDict (<[py "claim" := JStr (py "x")]> ∅)]).
Proof.
  apply (whitespace_around_a_value_is_ignored (nl ++ Cases.claims_text ++ nl)).
  vm_compute. reflexivity.
Defined.

Lemma cleaning_keeps_the_decoded_value_witness :
  (clean_response (Some Cases.claims_text) ≫= json_loads)
  = Ok (JList [JDict (<[py "claim" := JStr (py "x")]> ∅)]) ∧
  (no_backtick Cases.claims_text = true → ∀ trailer,
     (clean_response
        (Some (fence ++ json_tag ++ nl ++ Cases.claims_text ++ nl ++ fence
               ++ trailer)) ≫= json_loads)
     = Ok (JList [JDict (<[py "claim" := JStr (py "x")]> ∅)]) ∧
     (clean_response
        (Some (fence ++ nl ++ Cases.claims_text ++ nl ++ fence ++ trailer))
        ≫= json_loads)
     = Ok (JList [JDict (<[py "claim" := JStr (py "x")]> ∅)])).
Proof.
  apply (cleaning_keeps_the_decoded_value Cases.claims_text).
  vm_compute. reflexivity.
Defined.

